(** * generate_pdf.py: pairing, composing and paginating order SVGs

    A shallow embedding of [src/generate_pdf.py].  Python floats are the
    kernel's binary64 numbers ([PrimFloat]), Python ints are [Z], dicts
    are [gmap]s, exceptions are a [result] type, and everything the
    script does to the outside world (logging, the file system, the
    reportlab canvas) is recorded as a list of [event]s.  Library
    functions the script merely calls ([float], [str] of a float,
    [ET.parse], [svg2rlg], reportlab's page constants) are section
    variables. *)

From Stdlib Require Import ZArith Lia List String Ascii Bool Floats.
From stdpp Require Import base option list gmap strings pretty sorting.
Import ListNotations.

Set Warnings "-inexact-float,-register-all,-clear-no-such-hyp".

(** ** Python floats *)

Module PyFloat.

Local Open Scope float_scope.

(** [max(a, b)] on two arguments: the first one is kept unless the
    second compares strictly greater. *)
Definition max (a b : float) : float := if a <? b then b else a.

(** [x != x]: only NaN differs from itself. *)
Definition is_nan (x : float) : bool := negb (x =? x).

(** The value of a finite float in units of 2^-1074 (every finite
    binary64 number is an integer multiple of it); [None] for the
    infinities and NaN. *)
Definition scale : Z := 1074.

Definition scaled (x : float) : option Z :=
  match Prim2SF x with
  | S754_zero _ => Some 0%Z
  | S754_finite s m e => Some (cond_Zopp s (Zpos m) * 2 ^ (e + scale))%Z
  | S754_infinity _ | S754_nan => None
  end.

(** [int(z)] converted for mixed arithmetic: round to nearest even. *)
Definition of_int (z : Z) : float :=
  SF2Prim (binary_normalize prec emax z 0 false).

End PyFloat.

(** ** Exceptions and results *)

Inductive exn : Type :=
  | ValueError (msg : string)
  | ZeroDivisionError
  | OverflowError.

(** [Diverge] is the answer of a loop that was not given enough fuel. *)
Inductive result (A : Type) : Type :=
  | Ok (a : A)
  | Raise (e : exn)
  | Diverge.

Arguments Ok {A} a.
Arguments Raise {A} e.
Arguments Diverge {A}.

Global Instance result_ret : MRet result := fun _ a => Ok a.

Global Instance result_bind : MBind result := fun _ _ k r =>
  match r with
  | Ok a => k a
  | Raise e => Raise e
  | Diverge => Diverge
  end.

Definition msg_missing_length : string := "Missing SVG length attribute".
Definition msg_not_a_float : string := "could not convert string to float".
Definition msg_missing_dimensions : string :=
  "SVG element must declare width/height or viewBox".
Definition msg_floor_nan : string := "cannot convert float NaN to integer".

(** Float division and [math.floor], with the exceptions Python raises. *)
Definition py_div (a b : float) : result float :=
  if (b =? 0)%float then Raise ZeroDivisionError else Ok (a / b)%float.

Definition math_floor (x : float) : result Z :=
  match Prim2SF x with
  | S754_zero _ => Ok 0%Z
  | S754_finite s m e =>
      Ok (if (0 <=? e)%Z then cond_Zopp s (Zpos m) * 2 ^ e
          else cond_Zopp s (Zpos m) / 2 ^ (- e))%Z
  | S754_infinity _ => Raise OverflowError
  | S754_nan => Raise (ValueError msg_floor_nan)
  end.

(** ** Python strings *)

Module PyStr.

Local Open Scope char_scope.

(** The ASCII characters [str.isspace] accepts. *)
Definition is_space (c : ascii) : bool :=
  let n := nat_of_ascii c in
  ((9 <=? n) && (n <=? 13) || (28 <=? n) && (n <=? 32))%nat.

Fixpoint lstrip (s : list ascii) : list ascii :=
  match s with
  | c :: t => if is_space c then lstrip t else s
  | [] => []
  end.

Definition strip_chars (s : list ascii) : list ascii :=
  rev (lstrip (rev (lstrip s))).

Definition strip (s : string) : string :=
  string_of_list_ascii (strip_chars (list_ascii_of_string s)).

(** [s.endswith(suffix)]. *)
Definition endswith (s suffix : string) : bool :=
  bool_decide (list_ascii_of_string suffix `suffix_of` list_ascii_of_string s).

(** [s[:-k]] for [k > 0]. *)
Definition drop_last (k : nat) (s : string) : string :=
  let cs := list_ascii_of_string s in
  string_of_list_ascii (take (length cs - k) cs).

(** [s.replace(a, b)] for single characters. *)
Definition replace_char (a b : ascii) (s : string) : string :=
  string_of_list_ascii
    (map (fun c => if Ascii.eqb c a then b else c) (list_ascii_of_string s)).

(** [s.split()]: the maximal runs of non-space characters. *)
Fixpoint split_go (cur : list ascii) (s : list ascii) : list string :=
  match s with
  | [] =>
      match cur with
      | [] => []
      | _ => [string_of_list_ascii (rev cur)]
      end
  | c :: t =>
      if is_space c then
        match cur with
        | [] => split_go [] t
        | _ => string_of_list_ascii (rev cur) :: split_go [] t
        end
      else split_go (c :: cur) t
  end.

Definition split (s : string) : list string :=
  split_go [] (list_ascii_of_string s).

(** [s.replace(pat, "")] for a non-empty [pat]: scanning left to right,
    every occurrence found is dropped and the scan resumes after it. *)
Fixpoint remove_go (pat : list ascii) (skip : nat) (s : list ascii)
  : list ascii :=
  match s with
  | [] => []
  | c :: t =>
      match skip with
      | S k => remove_go pat k t
      | O =>
          if bool_decide (take (length pat) s = pat)
          then remove_go pat (length pat - 1) t
          else c :: remove_go pat 0 t
      end
  end.

Definition remove_all (pat s : string) : string :=
  string_of_list_ascii
    (remove_go (list_ascii_of_string pat) 0 (list_ascii_of_string s)).

(** The truth value of an optional string: present and non-empty. *)
Definition truthy (v : option string) : bool :=
  match v with
  | Some s => negb (String.eqb s "")
  | None => false
  end.

End PyStr.

(** ** Data *)

(** A path is a directory and a final component. *)
Record Path : Type := mkPath { parent : string; name : string }.

(** [Path.stem]: the final component without its last suffix. *)
Fixpoint rfind_dot (i : nat) (s : list ascii) : option nat :=
  match s with
  | [] => None
  | c :: t =>
      match rfind_dot (S i) t with
      | Some j => Some j
      | None => if Ascii.eqb c "." then Some i else None
      end
  end.

Definition stem_of (nm : string) : string :=
  let cs := list_ascii_of_string nm in
  match rfind_dot 0 cs with
  | Some i =>
      if ((0 <? i) && (i <? length cs - 1))%nat
      then string_of_list_ascii (take i cs) else nm
  | None => nm
  end.

Definition stem (p : Path) : string := stem_of (name p).

(** An [xml.etree] element: tag, attribute dictionary, children.  Text
    content plays no part in the script. *)
Inductive Element : Type :=
  mkElement (tag : string) (attrib : gmap string string)
            (children : list Element).

Definition tag (e : Element) : string :=
  match e with mkElement t _ _ => t end.
Definition attrib (e : Element) : gmap string string :=
  match e with mkElement _ a _ => a end.
Definition children (e : Element) : list Element :=
  match e with mkElement _ _ c => c end.

Record Figabooth : Type := mkFigabooth {
  order_id : string;
  svg_path : Path;
  width_px : float;
  height_px : float
}.

(** What the script does to the world, in the order it does it. *)
Inductive event : Type :=
  | LogWarning (msg : string)
  | LogInfo (msg : string)
  | Mkdir (dir : string)
  | WriteSvg (path : Path) (root : Element)
  | NewCanvas (path : Path)
  | ShowPage
  | DrawAt (path : Path) (scale_x scale_y x y : float)
  | SaveCanvas.

(** A computation that logs events and then returns, raises or hangs. *)
Definition io (A : Type) : Type := (list event * result A)%type.

Global Instance io_ret : MRet io := fun _ a => ([], Ok a).

Global Instance io_bind : MBind io := fun _ _ k m =>
  match m with
  | (t, Ok a) => let '(t', r) := k a in (t ++ t', r)
  | (t, Raise e) => (t, Raise e)
  | (t, Diverge) => (t, Diverge)
  end.

Definition emit (e : event) : io unit := ([e], Ok tt).
Definition lift {A} (r : result A) : io A := ([], r).
Definition trace {A} (m : io A) : list event := fst m.
Definition outcome {A} (m : io A) : result A := snd m.

(** Floor division and remainder of Python ints. *)
Definition py_floordiv (a b : Z) : result Z :=
  if (b =? 0)%Z then Raise ZeroDivisionError else Ok (a / b)%Z.
Definition py_mod (a b : Z) : result Z :=
  if (b =? 0)%Z then Raise ZeroDivisionError else Ok (a mod b)%Z.

(** ** Module constants *)

Definition SVG_NS : string := "http://www.w3.org/2000/svg".
Definition PX_TO_MM : float := 0.2645833333.

Definition svg_tag (local : string) : string := "{" +:+ SVG_NS +:+ "}" +:+ local.

(** The four lengths [layout_figabooths] fixes as local constants, in
    pixels.  The planner below takes them as an argument so that its
    properties can be stated for any values; [source_constants] are the
    ones of the script. *)
Record LayoutConstants : Type := mkConstants {
  v_spacing_px : float;
  start_x_px : float;
  top_margin_px : float;
  overlap_px : float
}.

Definition source_constants : LayoutConstants :=
  {| v_spacing_px := 78.383;
     start_x_px := 22.793;
     top_margin_px := 31.625;
     overlap_px := 11.929 |}.

(** reportlab's [mm] (lib/units.py) and [A4] (lib/pagesizes.py). *)
Definition reportlab_mm : float := (72.0 / 2.54 * 0.1)%float.
Definition reportlab_A4 : float * float :=
  (210 * reportlab_mm, 297 * reportlab_mm)%float.

(** The page grid computed by lines 151-189 of the script. *)
Record Grid : Type := mkGrid {
  start_x_pt : float;
  start_y : float;
  step_x_pt : float;
  fig_width_pt : float;
  fig_height_pt : float;
  v_spacing_pt : float;
  row_height_pt : float;
  max_cols : Z;
  max_rows : Z;
  per_page : Z
}.

(** [pairs.sort(key=lambda item: item[2])]: a stable sort on the order
    id, strings being compared character by character. *)
Definition by_order_id (p q : Path * Path * string) : Prop :=
  String.le p.2 q.2.

Global Instance by_order_id_dec : RelDecision by_order_id.
Proof. intros p q. unfold by_order_id. apply _. Defined.

Fixpoint insert_pair (p : Path * Path * string)
         (sorted : list (Path * Path * string)) : list (Path * Path * string) :=
  match sorted with
  | [] => [p]
  | q :: rest =>
      if decide (by_order_id p q) then p :: q :: rest
      else q :: insert_pair p rest
  end.

Definition sort_pairs (pairs : list (Path * Path * string))
  : list (Path * Path * string) :=
  foldr insert_pair [] pairs.

(** The files written by [combine_order], in the order of writing. *)
Definition composites_written (t : list event) : list Path :=
  omap (fun e => match e with WriteSvg p _ => Some p | _ => None end) t.

(** ** The script *)

Section Script.

(** Python's [float(s)] ([None] when it raises [ValueError]) and
    [str(x)] of a float, as used by the f-strings. *)
Variable py_float : string -> option float.
Variable py_str : float -> string.

(** [ET.parse(path).getroot()] for the files of the run. *)
Variable read_svg : Path -> Element.

(** The names in a directory, in the order [glob] yields them. *)
Variable listdir : string -> list string.

(** Width and height of the drawing [svg2rlg] builds from a file. *)
Variable svg2rlg : Path -> float * float.

(** reportlab's unit and page size. *)
Variable mm : float.
Variable A4 : float * float.

Definition float_of (s : string) : result float :=
  match py_float s with
  | Some x => Ok x
  | None => Raise (ValueError msg_not_a_float)
  end.

(** *** parse_length (lines 36-51) *)

Definition convert (suffix : string) (num : float) : option float :=
  if String.eqb suffix "px" then Some num
  else if String.eqb suffix "mm" then Some (num / PX_TO_MM)%float
  else if String.eqb suffix "cm" then Some ((num * 10.0) / PX_TO_MM)%float
  else if String.eqb suffix "in" then Some ((num * 25.4) / PX_TO_MM)%float
  else None.

Fixpoint parse_suffixes (value : string) (suffixes : list string)
  : result float :=
  match suffixes with
  | [] => float_of value
  | suffix :: rest =>
      if PyStr.endswith value suffix then
        num ← float_of (PyStr.drop_last (String.length suffix) value);
        match convert suffix num with
        | Some px => Ok px
        | None => parse_suffixes value rest
        end
      else parse_suffixes value rest
  end.

Definition unit_suffixes : list string := ["px"; "mm"; "cm"; "in"].

Definition parse_length (value : option string) : result float :=
  match value with
  | None => Raise (ValueError msg_missing_length)
  | Some v => parse_suffixes (PyStr.strip v) unit_suffixes
  end.

(** *** element_dimensions (lines 54-64) *)

Definition element_dimensions (root : Element) : result (float * float) :=
  let width := attrib root !! "width" in
  let height := attrib root !! "height" in
  if PyStr.truthy width && PyStr.truthy height then
    w ← parse_length width;
    h ← parse_length height;
    Ok (w, h)
  else
    let view_box := attrib root !! "viewBox" in
    let missing := Raise (ValueError msg_missing_dimensions) in
    if PyStr.truthy view_box then
      let parts := PyStr.split (PyStr.replace_char "," " " (default "" view_box)) in
      if (length parts =? 4)%nat then
        w ← float_of (nth 2 parts "");
        h ← float_of (nth 3 parts "");
        Ok (w, h)
      else missing
    else missing.

(** *** figabooth_dimensions (lines 67-72) *)

Definition figabooth_dimensions (head_root body_root : Element)
  : result (float * float * float * float * float * float) :=
  '(head_width, head_height) ← element_dimensions head_root;
  '(body_width, body_height) ← element_dimensions body_root;
  let total_width := PyFloat.max head_width body_width in
  let total_height := (head_height + body_height)%float in
  Ok (head_width, head_height, body_width, body_height,
      total_width, total_height).

(** *** clone_as_group (lines 75-80) *)

Definition clone_as_group (element : Element) : Element :=
  mkElement (svg_tag "g")
    (foldl (fun a k => delete k a) (attrib element)
           ["width"; "height"; "viewBox"; "x"; "y"])
    (children element).

Definition set_attr (k v : string) (e : Element) : Element :=
  mkElement (tag e) (<[k := v]> (attrib e)) (children e).

(** *** combine_order (lines 91-130) *)

Definition combine_order (head_path body_path output_path : Path)
  : io Figabooth :=
  let head_root := read_svg head_path in
  let body_root := read_svg body_path in
  '(head_width, head_height, body_width, body_height,
    total_width, total_height) ← lift (figabooth_dimensions head_root body_root);
  let root_attrib : gmap string string :=
    <["width" := py_str total_width]>
    (<["height" := py_str total_height]>
    (<["viewBox" := "0 0 " +:+ py_str total_width +:+ " " +:+ py_str total_height]>
    (<["version" := "1.1"]> ∅))) in
  let head_group := clone_as_group head_root in
  let head_offset_x := ((total_width - head_width) / 2)%float in
  let head_group :=
    set_attr "transform" ("translate(" +:+ py_str head_offset_x +:+ ",0)")
             head_group in
  let body_group := clone_as_group body_root in
  let body_offset_x := ((total_width - body_width) / 2)%float in
  let body_group :=
    set_attr "transform"
             ("translate(" +:+ py_str body_offset_x +:+ ","
                +:+ py_str head_height +:+ ")")
             body_group in
  let root := mkElement (svg_tag "svg") root_attrib [head_group; body_group] in
  _ ← emit (Mkdir (parent output_path));
  _ ← emit (WriteSvg output_path root);
  mret {| order_id := PyStr.remove_all "_figabooth" (stem output_path);
          svg_path := output_path;
          width_px := total_width;
          height_px := total_height |}.

(** *** discover_orders (lines 133-143) *)

Fixpoint scan_heads (order_dir : string) (heads : list string)
  : list event * list (Path * Path * string) :=
  match heads with
  | [] => ([], [])
  | head_name :: rest =>
      let order_id := PyStr.drop_last 5 (stem_of head_name) in
      let body_name := order_id +:+ "_body.svg" in
      let '(log, pairs) := scan_heads order_dir rest in
      if bool_decide (body_name ∈ listdir order_dir) then
        (log, (mkPath order_dir head_name, mkPath order_dir body_name, order_id)
                :: pairs)
      else
        (LogWarning ("Skipping order " +:+ order_id +:+ ": missing body SVG")
           :: log, pairs)
  end.

Definition glob_heads (order_dir : string) : list string :=
  filter (fun nm => PyStr.endswith nm "_head.svg" = true) (listdir order_dir).

Definition discover_orders (order_dir : string)
  : io (list (Path * Path * string)) :=
  let '(log, pairs) := scan_heads order_dir (glob_heads order_dir) in
  (log, Ok (sort_pairs pairs)).

(** *** layout_figabooths (lines 146-214) *)

(** The row-counting loop of lines 181-185. *)
Fixpoint count_rows (fuel : nat) (max_rows : Z)
         (current_y row_height_pt : float) : result Z :=
  match fuel with
  | O => Diverge
  | S fuel' =>
      if (0 <=? current_y)%float
      then count_rows fuel' (max_rows + 1)%Z
                      (current_y - row_height_pt)%float row_height_pt
      else Ok max_rows
  end.

(** Lines 151-189: the grid, from the first figabooth alone.  Where the
    script assigns the int [0] to [start_y] the float [0] stands for
    it: every later use converts it. *)
Definition layout_grid (K : LayoutConstants) (fuel : nat) (fig0 : Figabooth)
  : result Grid :=
  let '(page_width_pt, page_height_pt) := A4 in
  let v_spacing_pt := (v_spacing_px K * PX_TO_MM * mm)%float in
  let start_x_pt := (start_x_px K * PX_TO_MM * mm)%float in
  let top_margin_pt := (top_margin_px K * PX_TO_MM * mm)%float in
  let overlap_pt := (overlap_px K * PX_TO_MM * mm)%float in
  let fig_width_pt := (width_px fig0 * PX_TO_MM * mm)%float in
  let fig_height_pt := (height_px fig0 * PX_TO_MM * mm)%float in
  let start_y := (page_height_pt - top_margin_pt - fig_height_pt)%float in
  let start_y := if (start_y <? 0)%float then 0%float else start_y in
  let step_x_pt := (fig_width_pt - overlap_pt)%float in
  let step_x_pt := if (step_x_pt <=? 0)%float then fig_width_pt else step_x_pt in
  let available_width_pt := (page_width_pt - start_x_pt)%float in
  max_cols ←
    (if (available_width_pt <=? fig_width_pt)%float then Ok 1%Z
     else
       q ← py_div (available_width_pt - fig_width_pt)%float step_x_pt;
       n ← math_floor q;
       Ok (Z.max 1 (n + 1)));
  let row_height_pt := (fig_height_pt + v_spacing_pt)%float in
  max_rows ← count_rows fuel 0 start_y row_height_pt;
  let max_rows := if (max_rows =? 0)%Z then 1%Z else max_rows in
  let per_page := (max_cols * max_rows)%Z in
  Ok {| start_x_pt := start_x_pt;
        start_y := start_y;
        step_x_pt := step_x_pt;
        fig_width_pt := fig_width_pt;
        fig_height_pt := fig_height_pt;
        v_spacing_pt := v_spacing_pt;
        row_height_pt := row_height_pt;
        max_cols := max_cols;
        max_rows := max_rows;
        per_page := per_page |}.

(** Lines 195-212: the body of the placement loop. *)
Definition draw_fig (g : Grid) (index : Z) (fig : Figabooth) : io unit :=
  slot ← lift (py_mod index (per_page g));
  row ← lift (py_floordiv slot (max_cols g));
  col ← lift (py_mod slot (max_cols g));
  _ ← (if (slot =? 0)%Z && negb (index =? 0)%Z then emit ShowPage else mret tt);
  let x := (start_x_pt g + PyFloat.of_int col * step_x_pt g)%float in
  let y := (start_y g
            - PyFloat.of_int row * (fig_height_pt g + v_spacing_pt g))%float in
  let '(drawing_width, drawing_height) := svg2rlg (svg_path fig) in
  if (drawing_width =? 0)%float || (drawing_height =? 0)%float then
    emit (LogWarning ("Skipping empty figabooth SVG for order " +:+ order_id fig))
  else
    scale_x ← lift (py_div (fig_width_pt g) drawing_width);
    scale_y ← lift (py_div (fig_height_pt g) drawing_height);
    emit (DrawAt (svg_path fig) scale_x scale_y x y).

(** [for index, fig in enumerate(figs)], from a given first index. *)
Fixpoint draw_figs (g : Grid) (index : Z) (figs : list Figabooth) : io unit :=
  match figs with
  | [] => mret tt
  | fig :: rest => _ ← draw_fig g index fig; draw_figs g (index + 1)%Z rest
  end.

Definition layout_figabooths (K : LayoutConstants) (fuel : nat)
           (figs : list Figabooth) (pdf_path : Path) : io unit :=
  match figs with
  | [] => emit (LogInfo "No figabooths generated; skipping PDF creation.")
  | fig0 :: _ =>
      g ← lift (layout_grid K fuel fig0);
      _ ← emit (Mkdir (parent pdf_path));
      _ ← emit (NewCanvas pdf_path);
      _ ← draw_figs g 0 figs;
      emit SaveCanvas
  end.

(** *** process_orders (lines 217-223) and main (lines 255-261) *)

Fixpoint combine_all (fig_output_dir : string)
         (pairs : list (Path * Path * string)) : io (list Figabooth) :=
  match pairs with
  | [] => mret []
  | (head_path, body_path, order_id) :: rest =>
      let fig_path := mkPath fig_output_dir (order_id +:+ "_figabooth.svg") in
      fig ← combine_order head_path body_path fig_path;
      figabooths ← combine_all fig_output_dir rest;
      mret (fig :: figabooths)
  end.

Definition process_orders (fuel : nat) (order_dir fig_output_dir : string)
           (pdf_path : Path) : io unit :=
  pairs ← discover_orders order_dir;
  figabooths ← combine_all fig_output_dir pairs;
  layout_figabooths source_constants fuel figabooths pdf_path.

Definition main (fuel : nat) (order_dir fig_output_dir : string)
           (pdf : Path) : io unit :=
  process_orders fuel order_dir fig_output_dir pdf.

(** The exit status of the interpreter: 0 when [main] returns, 1 when
    an exception escapes it; none while it has not finished. *)
Definition exit_status (m : io unit) : option Z :=
  match outcome m with
  | Ok _ => Some 0%Z
  | Raise _ => Some 1%Z
  | Diverge => None
  end.

End Script.

(** ** The specification's formulas

    Definitions that follow the words of the specification rather than
    the script; the theorems below compare the two. *)

Module Spec.

(** The closed set of unit tags of a length. *)
Inductive unit_tag : Type := Px | Mm | Cm | In.

Definition tag_text (u : unit_tag) : string :=
  match u with Px => "px" | Mm => "mm" | Cm => "cm" | In => "in" end.

(** Conversion to pixels with the one constant [PX_TO_MM]. *)
Definition mm_to_px (num : float) : float := (num / PX_TO_MM)%float.

Definition to_px (u : unit_tag) (num : float) : float :=
  match u with
  | Px => num
  | Mm => mm_to_px num
  | Cm => mm_to_px (num * 10.0)
  | In => mm_to_px (num * 25.4)
  end.

(** The recognized forms of a length: a number followed by a unit tag,
    or a number alone (in pixels). *)
Inductive length_form (py_float : string -> option float)
  : string -> float -> Prop :=
  | form_tagged u n x :
      py_float n = Some x ->
      length_form py_float (n +:+ tag_text u) (to_px u x)
  | form_bare s x :
      (forall u, PyStr.endswith s (tag_text u) = false) ->
      py_float s = Some x ->
      length_form py_float s x.

(** The two ways an element declares its size. *)
Definition has_width_height (root : Element) : bool :=
  PyStr.truthy (attrib root !! "width") && PyStr.truthy (attrib root !! "height").

Definition box_tokens (root : Element) : list string :=
  PyStr.split (PyStr.replace_char "," " " (default "" (attrib root !! "viewBox"))).

Definition has_bounding_box (root : Element) : bool :=
  PyStr.truthy (attrib root !! "viewBox") && (length (box_tokens root) =? 4)%nat.

(** Step 1 of the planner: pixels to points. *)
Definition px_to_pt (mm x : float) : float := (x * PX_TO_MM * mm)%float.

(** Step 3 of the planner. *)
Definition step_x (composite_width overlap : float) : float :=
  if (composite_width - overlap <=? 0)%float then composite_width
  else (composite_width - overlap)%float.

(** Step 4 of the planner; [/] and [floor] are Python's. *)
Definition columns (page_width start_x composite_width step : float)
  : result Z :=
  let available_width := (page_width - start_x)%float in
  if (available_width <=? composite_width)%float then Ok 1%Z
  else
    q ← py_div (available_width - composite_width)%float step;
    n ← math_floor q;
    Ok (Z.max 1 (n + 1)).

(** Step 2 of the planner. *)
Definition clamped_start_y (page_height top_margin composite_height : float)
  : float :=
  if (page_height - top_margin - composite_height <? 0)%float then 0%float
  else (page_height - top_margin - composite_height)%float.

(** The slot assignment of section 3. *)
Record Slot : Type := mkSlot { page : Z; slot : Z; row : Z; col : Z }.

Definition slot_of (capacity cols i : Z) : Slot :=
  {| page := i / capacity;
     slot := i mod capacity;
     row := (i mod capacity) / cols;
     col := (i mod capacity) mod cols |}.

(** A page break precedes composite [i]. *)
Definition breaks_page (capacity i : Z) : bool :=
  (i mod capacity =? 0)%Z && negb (i =? 0)%Z.

(** The first [n] subtractions [y - r], [(y - r) - r], ... of the row
    loop are exact: none of them rounds. *)
Fixpoint exact_steps (n : nat) (y r : float) : bool :=
  match n with
  | O => true
  | S n' =>
      match PyFloat.scaled y, PyFloat.scaled r, PyFloat.scaled (y - r) with
      | Some vy, Some vr, Some v' =>
          (v' =? vy - vr)%Z && exact_steps n' (y - r)%float r
      | _, _, _ => false
      end
  end.

End Spec.

(** The number of pages started in a trace. *)
Definition is_show_page (e : event) : bool :=
  match e with ShowPage => true | _ => false end.

Definition pages_started (t : list event) : Z :=
  Z.of_nat (length (filter (fun e => is_show_page e = true) t)).

Definition touches_canvas (e : event) : bool :=
  match e with
  | NewCanvas _ | ShowPage | DrawAt _ _ _ _ _ | SaveCanvas => true
  | _ => false
  end.

(** The order id a head file stands for, the warning logged when its
    body is missing, and the file its composite is written to. *)
Definition order_of (head_name : string) : string :=
  PyStr.drop_last 5 (stem_of head_name).

Definition warning_for (order : string) : event :=
  LogWarning ("Skipping order " +:+ order +:+ ": missing body SVG").

Definition fig_path (fig_output_dir : string) (p : Path * Path * string) : Path :=
  mkPath fig_output_dir (p.2 +:+ "_figabooth.svg").

(** What the placement loop is specified to do with composite [i]: a
    page break when its slot wraps to zero (never for the first one),
    then the composite drawn in the cell of its slot, scaled to the cell,
    or a warning when its drawing is empty. *)
Definition placed (svg2rlg : Path -> float * float) (g : Grid) (i : Z)
           (fig : Figabooth) : event :=
  let s := Spec.slot_of (per_page g) (max_cols g) i in
  let '(drawing_width, drawing_height) := svg2rlg (svg_path fig) in
  if (drawing_width =? 0)%float || (drawing_height =? 0)%float then
    LogWarning ("Skipping empty figabooth SVG for order " +:+ order_id fig)
  else
    DrawAt (svg_path fig)
           (fig_width_pt g / drawing_width)%float
           (fig_height_pt g / drawing_height)%float
           (start_x_pt g + PyFloat.of_int (Spec.col s) * step_x_pt g)%float
           (start_y g
            - PyFloat.of_int (Spec.row s) * (fig_height_pt g + v_spacing_pt g))%float.

Definition item_events (svg2rlg : Path -> float * float) (g : Grid) (i : Z)
           (fig : Figabooth) : list event :=
  (if Spec.breaks_page (per_page g) i then [ShowPage] else [])
    ++ [placed svg2rlg g i fig].

Definition placements (svg2rlg : Path -> float * float) (g : Grid)
           (figs : list Figabooth) : list event :=
  concat (imap (fun i fig => item_events svg2rlg g (Z.of_nat i) fig) figs).

(** The text [combine_order] deletes from the stem of the output name. *)
Definition figabooth_mark : list ascii := list_ascii_of_string "_figabooth".

(** [pat] occurs in [s]. *)
Definition occurs_in (pat s : string) : Prop :=
  exists a b, s = a +:+ pat +:+ b.

(** The composite of a pair has the size [figabooth_dimensions] gives
    for its two files and lies at the pair's output path. *)
Definition built_from (py_float : string -> option float)
           (read_svg : Path -> Element) (fig_output_dir : string)
           (p : Path * Path * string) (fig : Figabooth) : Prop :=
  svg_path fig = fig_path fig_output_dir p /\
  exists hw hh bw bh,
    figabooth_dimensions py_float (read_svg p.1.1) (read_svg p.1.2)
    = Ok (hw, hh, bw, bh, width_px fig, height_px fig).

(** What [discover_orders] makes of one head name. *)
Definition pair_for (listdir : string -> list string) (order_dir head_name : string)
  : option (Path * Path * string) :=
  let order := order_of head_name in
  if bool_decide ((order +:+ "_body.svg") ∈ listdir order_dir)
  then Some (mkPath order_dir head_name,
             mkPath order_dir (order +:+ "_body.svg"), order)
  else None.

Definition warning_of (listdir : string -> list string) (order_dir head_name : string)
  : option event :=
  if bool_decide ((order_of head_name +:+ "_body.svg") ∈ listdir order_dir)
  then None else Some (warning_for (order_of head_name)).

(** Two composites the placement loop cannot tell apart. *)
Definition same_file (a b : Figabooth) : Prop :=
  svg_path a = svg_path b /\ order_id a = order_id b.

(** ** A concrete run

    Stand-ins for the library functions, enough to execute the script on
    examples: [float] on digit strings, [str] on small whole numbers, files
    given by a map from their names. *)

Module Demo.

Definition digit_of (c : ascii) : option Z :=
  let n := nat_of_ascii c in
  if ((48 <=? n) && (n <=? 57))%nat then Some (Z.of_nat (n - 48)) else None.

Fixpoint digits (acc : Z) (s : list ascii) : option Z :=
  match s with
  | [] => Some acc
  | c :: t =>
      match digit_of c with
      | Some d => digits (10 * acc + d) t
      | None => None
      end
  end.

(** [float] restricted to non-empty strings of at most 15 digits, on
    which the conversion is exact. *)
Definition float_of_digits (s : string) : option float :=
  let cs := list_ascii_of_string s in
  if ((1 <=? length cs) && (length cs <=? 15))%nat
  then PyFloat.of_int <$> digits 0 cs
  else None.

(** [str] on floats with an integer value below 10^15. *)
Definition str_of_float (x : float) : string :=
  match math_floor x with
  | Ok z =>
      if ((PyFloat.of_int z =? x)%float && (0 <=? z)%Z && (z <? 10 ^ 15)%Z)%bool
      then pretty z +:+ ".0" else "<float>"
  | _ => "<float>"
  end.

Definition svg (w h : string) : Element :=
  mkElement (svg_tag "svg") (<["width" := w]> (<["height" := h]> ∅)) [].

Definition files (fs : gmap string Element) (p : Path) : Element :=
  default (mkElement "" ∅ []) (fs !! name p).

Definition head_100x50 : Element := svg "100" "50".
Definition body_80x60 : Element := svg "80" "60".

(** A head that declares its size by a bounding box only. *)
Definition boxed_100x50 : Element :=
  mkElement (svg_tag "svg") (<["viewBox" := "0,0 100 50"]> ∅) [].

(** An order directory: orders a and c are complete, b has no body. *)
Definition orders (dir : string) : list string :=
  ["c_head.svg"; "b_head.svg"; "a_body.svg"; "notes.txt"; "a_head.svg";
   "c_body.svg"].

Definition order_files : Path -> Element :=
  files (list_to_map
           [("a_head.svg", head_100x50); ("a_body.svg", body_80x60);
            ("c_head.svg", boxed_100x50); ("c_body.svg", body_80x60)]).

Definition a_head : Path := mkPath "orders" "a_head.svg".
Definition a_body : Path := mkPath "orders" "a_body.svg".
Definition a_out : Path := mkPath "out" "a_figabooth.svg".
Definition sheet : Path := mkPath "." "figabooth.pdf".

(** Every drawing comes back 100 by 110. *)
Definition drawings (p : Path) : float * float := (100, 110)%float.

Definition fig_100x110 : Figabooth :=
  {| order_id := "a"; svg_path := a_out; width_px := 100; height_px := 110 |}.

(** A composite larger than an A4 page in both directions. *)
Definition poster : Figabooth :=
  {| order_id := "p"; svg_path := mkPath "out" "p_figabooth.svg";
     width_px := 1000; height_px := 2000 |}.

End Demo.

(** Two more directories: one in which order m has a head that declares
    no size, one whose only order z is 0 pixels wide. *)
Module DemoRuns.

Definition broken_orders (dir : string) : list string :=
  ["m_body.svg"; "m_head.svg"; "a_head.svg"; "a_body.svg"].

Definition broken_files : Path -> Element :=
  Demo.files (list_to_map
    [("a_head.svg", Demo.head_100x50); ("a_body.svg", Demo.body_80x60);
     ("m_head.svg", mkElement (svg_tag "svg") ∅ []);
     ("m_body.svg", Demo.body_80x60)]).

Definition pair_of (order : string) : Path * Path * string :=
  (mkPath "orders" (order +:+ "_head.svg"),
   mkPath "orders" (order +:+ "_body.svg"), order).

Definition flat_orders (dir : string) : list string :=
  ["z_head.svg"; "z_body.svg"].

Definition flat_files : Path -> Element :=
  Demo.files (list_to_map
    [("z_head.svg", Demo.svg "0" "50"); ("z_body.svg", Demo.svg "0" "60")]).

(** A composite whose height is not a number, as [float("nan")] gives. *)
Definition hazy : Figabooth :=
  {| order_id := "h"; svg_path := mkPath "out" "h_figabooth.svg";
     width_px := 100; height_px := 0 / 0 |}.

(** A composite of another size that shares the file of [Demo.fig_100x110]. *)
Definition fig_5x5 : Figabooth :=
  {| order_id := "a"; svg_path := Demo.a_out; width_px := 5; height_px := 5 |}.

End DemoRuns.

(** * Properties *)

(** ** Facts about binary64 comparisons

    Derived from the specification of the primitive operations
    ([FloatAxioms]) by case analysis on the decoded operands. *)

Section FloatFacts.
Local Open Scope float_scope.

Lemma SFcompare_refl x : x <> S754_nan -> SFcompare x x = Some Eq.
Proof.
destruct x as [[]|[]| |[] m e]; cbn; try done;
  rewrite Z.compare_refl, Pos.compare_cont_refl; done.
Qed.

Lemma SFcompare_antisym x y :
SFcompare y x = CompOpp <$> SFcompare x y.
Proof.
destruct x as [[]|[]| |[] m e], y as [[]|[]| |[] m' e']; cbn; try done;
  pose proof (Pos.compare_cont_antisym m m' Eq) as P; cbn in P;
  rewrite (Z.compare_antisym e e'), <- P;
  destruct (e ?= e')%Z; cbn; try done;
  destruct (Pos.compare_cont Eq m m'); done.
Qed.

Lemma is_nan_false x : PyFloat.is_nan x = false -> Prim2SF x <> S754_nan.
Proof.
unfold PyFloat.is_nan. rewrite FloatAxioms.eqb_spec. unfold SFeqb.
intros H E. rewrite E in H. done.
Qed.

Lemma leb_refl x : PyFloat.is_nan x = false -> (x <=? x) = true.
Proof.
intros H%is_nan_false. rewrite FloatAxioms.leb_spec. unfold SFleb.
rewrite SFcompare_refl; done.
Qed.

Lemma ltb_leb x y : (x <? y) = true -> (x <=? y) = true.
Proof.
rewrite FloatAxioms.ltb_spec, FloatAxioms.leb_spec. unfold SFltb, SFleb.
destruct (SFcompare _ _) as [[]|]; done.
Qed.

Lemma not_ltb_leb x y :
PyFloat.is_nan x = false -> PyFloat.is_nan y = false ->
(x <? y) = false -> (y <=? x) = true.
Proof.
intros Hx%is_nan_false Hy%is_nan_false.
rewrite FloatAxioms.ltb_spec, FloatAxioms.leb_spec. unfold SFltb, SFleb.
rewrite (SFcompare_antisym (Prim2SF x) (Prim2SF y)).
destruct (Prim2SF x) as [[]|[]| |[] m e], (Prim2SF y) as [[]|[]| |[] m' e'];
  try done; cbn;
  destruct (e ?= e')%Z; cbn; try done;
  destruct (Pos.compare_cont Eq m m'); done.
Qed.

Lemma max_cases a b : PyFloat.max a b = a \/ PyFloat.max a b = b.
Proof. unfold PyFloat.max. destruct (a <? b); auto. Qed.

Lemma max_upper_bound a b :
PyFloat.is_nan a = false -> PyFloat.is_nan b = false ->
(a <=? PyFloat.max a b) = true /\ (b <=? PyFloat.max a b) = true.
Proof.
intros Ha Hb. unfold PyFloat.max. destruct (a <? b) eqn:E.
- split; [by apply ltb_leb | by apply leb_refl].
- split; [by apply leb_refl | by apply not_ltb_leb].
Qed.

Lemma finite_exponent_bound x s m e :
Prim2SF x = S754_finite s m e -> (- PyFloat.scale <= e)%Z.
Proof.
intros H. pose proof (Prim2SF_valid x) as V. rewrite H in V.
unfold SpecFloat.valid_binary, bounded, canonical_mantissa, fexp, emin in V.
apply andb_prop in V as [V _]. apply Z.eqb_eq in V.
unfold PyFloat.scale, prec, emax in *. lia.
Qed.

Lemma leb_zero_scaled y v :
PyFloat.scaled y = Some v -> (0 <=? y) = true <-> (0 <= v)%Z.
Proof.
unfold PyFloat.scaled. intros H. rewrite FloatAxioms.leb_spec.
change (Prim2SF 0) with (S754_zero false).
destruct (Prim2SF y) as [s| s | | s m e] eqn:E; try discriminate.
- injection H as <-. cbn. split; [lia|done].
- injection H as <-. apply finite_exponent_bound in E.
  assert (0 < 2 ^ (e + PyFloat.scale))%Z by (apply Z.pow_pos_nonneg; lia).
  destruct s; cbn; split; intros; try done; try nia.
Qed.

Lemma ltb_zero_scaled y v :
PyFloat.scaled y = Some v -> (0 <? y) = true <-> (0 < v)%Z.
Proof.
unfold PyFloat.scaled. intros H. rewrite FloatAxioms.ltb_spec.
change (Prim2SF 0) with (S754_zero false).
destruct (Prim2SF y) as [s| s | | s m e] eqn:E; try discriminate.
- injection H as <-. cbn. split; [done|lia].
- injection H as <-. apply finite_exponent_bound in E.
  assert (0 < 2 ^ (e + PyFloat.scale))%Z by (apply Z.pow_pos_nonneg; lia).
  destruct s; cbn; split; intros; try done; try nia.
Qed.

Lemma zero_minus_positive r : (0 <? r) = true -> (0 <=? 0 - r) = false.
Proof.
rewrite FloatAxioms.ltb_spec, FloatAxioms.leb_spec, FloatAxioms.sub_spec.
change (Prim2SF 0) with (S754_zero false).
destruct (Prim2SF r) as [[]|[]| |[] m e]; done.
Qed.

End FloatFacts.

(** ** The row-counting loop *)

Lemma count_rows_negative fuel acc y r v :
  PyFloat.scaled y = Some v -> (v < 0)%Z ->
  count_rows (S fuel) acc y r = Ok acc.
Proof.
  intros Hy Hv. cbn.
  destruct (0 <=? y)%float eqn:E; [|done].
  apply (leb_zero_scaled _ _ Hy) in E. lia.
Qed.

Lemma count_rows_exact_from r vr :
  PyFloat.scaled r = Some vr -> (0 < vr)%Z ->
  forall (n : nat) y vy acc fuel,
    PyFloat.scaled y = Some vy ->
    (vy < Z.of_nat n * vr)%Z ->
    Spec.exact_steps n y r = true ->
    (n < fuel)%nat ->
    count_rows fuel acc y r
    = Ok (acc + (if (vy <? 0)%Z then 0 else vy / vr + 1))%Z.
Proof.
  intros Hr Hpos n. induction n as [|n IH]; intros y vy acc fuel Hy Hlt Hex Hfuel.
  - destruct fuel as [|fuel]; [lia|].
    assert (vy < 0)%Z as Hneg by lia.
    rewrite (count_rows_negative _ _ _ _ _ Hy Hneg).
    apply Z.ltb_lt in Hneg. rewrite Hneg. f_equal. lia.
  - destruct fuel as [|fuel]; [lia|].
    destruct (Z.ltb_spec vy 0) as [Hneg|Hnn].
    + rewrite (count_rows_negative _ _ _ _ _ Hy Hneg). f_equal. lia.
    + cbn [count_rows].
      assert ((0 <=? y)%float = true) as -> by (by apply (leb_zero_scaled _ _ Hy)).
      cbn [Spec.exact_steps] in Hex. rewrite Hy, Hr in Hex.
      destruct (PyFloat.scaled (y - r)) as [v'|] eqn:Hy'; [|done].
      apply andb_prop in Hex as [Hv' Hex]. apply Z.eqb_eq in Hv'. subst v'.
      rewrite Nat2Z.inj_succ in Hlt.
      assert (vy - vr < Z.of_nat n * vr)%Z as Hlt' by lia.
      rewrite (IH _ _ (acc + 1)%Z fuel Hy' Hlt' Hex) by lia. f_equal.
      destruct (Z.ltb_spec (vy - vr) 0) as [Hlast|Hmore].
      * rewrite Z.div_small by lia. lia.
      * replace (vy - vr)%Z with (vy + (-1) * vr)%Z by lia.
        rewrite Z.div_add by lia. lia.
Qed.

Lemma count_rows_nonzero fuel y r :
  (0 <=? y)%float = true -> forall acc n, (0 <= acc)%Z -> count_rows fuel acc y r = Ok n -> (acc < n)%Z.
Proof.
  intros Hy acc n Hacc. destruct fuel as [|fuel]; [done|]. cbn. rewrite Hy.
  clear Hy. generalize (y - r)%float as y'. 
  assert (acc < acc + 1)%Z as Hlt by lia. revert Hlt. generalize (acc + 1)%Z as a.
  induction fuel as [|fuel IH]; intros a Ha y' H; [done|].
  cbn in H. destruct (0 <=? y')%float.
  - apply IH in H; lia.
  - injection H as <-. done.
Qed.

Lemma count_rows_at_least fuel y r :
  forall acc n, count_rows fuel acc y r = Ok n -> (acc <= n)%Z.
Proof.
  revert y. induction fuel as [|fuel IH]; intros y acc n H; [done|].
  cbn in H. destruct (0 <=? y)%float.
  - apply IH in H. lia.
  - injection H as <-. lia.
Qed.

Lemma count_rows_never_raises fuel acc y r e :
  count_rows fuel acc y r <> Raise e.
Proof.
  revert acc y. induction fuel as [|fuel IH]; intros acc y; [done|].
  cbn. destruct (0 <=? y)%float; [apply IH|done].
Qed.

(** Once the loop has answered, more fuel does not change the answer. *)
Lemma count_rows_more_fuel fuel y r acc n :
  count_rows fuel acc y r = Ok n ->
  forall fuel', (fuel <= fuel')%nat -> count_rows fuel' acc y r = Ok n.
Proof.
  revert y acc. induction fuel as [|fuel IH]; intros y acc H fuel' Hle; [done|].
  destruct fuel' as [|fuel']; [lia|].
  cbn in *. destruct (0 <=? y)%float; [|done].
  apply IH; [done|lia].
Qed.

(** A running value that the subtraction does not change keeps the
    loop going for ever. *)
Lemma count_rows_stuck y r :
  (0 <=? y)%float = true -> (y - r)%float = y ->
  forall fuel acc, count_rows fuel acc y r = Diverge.
Proof.
  intros Hy Hr fuel. induction fuel as [|fuel IH]; intros acc; [done|].
  cbn. rewrite Hy, Hr. apply IH.
Qed.

(** ** The pagination planner *)

Section Planner.

Variable mm : float.
Variable A4 : float * float.
Variable K : LayoutConstants.
Variable fig0 : Figabooth.

Local Abbreviation pt := (Spec.px_to_pt mm).
Local Abbreviation width := (pt (width_px fig0)).
Local Abbreviation height := (pt (height_px fig0)).
Local Abbreviation step := (Spec.step_x width (pt (overlap_px K))).
Local Abbreviation cols := (Spec.columns A4.1 (pt (start_x_px K)) width step).
Local Abbreviation first_y :=
  (Spec.clamped_start_y A4.2 (pt (top_margin_px K)) height).
Local Abbreviation row_h := (height + pt (v_spacing_px K))%float.

(** The planner is the formula for the columns followed by the row
    loop; the grid is assembled from their answers. *)
Lemma layout_grid_eq fuel :
  layout_grid mm A4 K fuel fig0 =
    (c ← cols;
     n ← count_rows fuel 0 first_y row_h;
     Ok {| start_x_pt := pt (start_x_px K);
           start_y := first_y;
           step_x_pt := step;
           fig_width_pt := width;
           fig_height_pt := height;
           v_spacing_pt := pt (v_spacing_px K);
           row_height_pt := row_h;
           max_cols := c;
           max_rows := if (n =? 0)%Z then 1%Z else n;
           per_page := c * (if (n =? 0)%Z then 1%Z else n) |}).
Proof. unfold layout_grid. destruct A4 as [page_width page_height]. reflexivity. Qed.

Lemma columns_positive c : cols = Ok c -> (1 <= c)%Z.
Proof.
  unfold Spec.columns.
  destruct (_ <=? width)%float; [intros [= <-]; lia|].
  destruct (py_div _ _) as [q| |]; cbn; [|done..].
  destruct (math_floor q) as [n| |]; cbn; [|done..].
  intros [= <-]. lia.
Qed.

Lemma layout_grid_inv fuel g :
  layout_grid mm A4 K fuel fig0 = Ok g ->
  exists c n,
    cols = Ok c /\ count_rows fuel 0 first_y row_h = Ok n /\
    start_y g = first_y /\ step_x_pt g = step /\ max_cols g = c /\
    max_rows g = (if (n =? 0)%Z then 1%Z else n) /\
    per_page g = (max_cols g * max_rows g)%Z.
Proof.
  rewrite layout_grid_eq.
  destruct cols as [c| |]; cbn; [|done..].
  destruct (count_rows _ _ _ _) as [n| |]; cbn; [|done..].
  intros [= <-]. exists c, n. cbn. done.
Qed.

Lemma layout_grid_raises fuel e :
  layout_grid mm A4 K fuel fig0 = Raise e <-> cols = Raise e.
Proof.
  rewrite layout_grid_eq.
  destruct cols as [c| |]; cbn; [|by split; intros [= ->]|by split].
  destruct (count_rows _ _ _ _) as [n| |] eqn:E; cbn; [by split| |by split].
  by apply count_rows_never_raises in E.
Qed.



End Planner.




(** Those two values are the ones the planner computes on an A4 page
    for a composite 155.47253703615797 pixels high. *)
Example undercount_is_reachable :
  exists g,
    layout_grid reportlab_mm reportlab_A4 source_constants 9
      (mkFigabooth "order" (mkPath "out" "order_figabooth.svg") 100
                   155.47253703615797) = Ok g /\
    start_y g = 701.5666110200876%float /\
    row_height_pt g = 175.3916527550219%float /\
    max_rows g = 4%Z.
Proof. eexists. split; [by vm_compute|]. by vm_compute. Qed.

(** ** Strings *)

Lemma chars_app a b :
  list_ascii_of_string (a +:+ b) = list_ascii_of_string a ++ list_ascii_of_string b.
Proof. induction a as [|c a IH]; simpl; [done|by f_equal]. Qed.

Lemma chars_inj a b : list_ascii_of_string a = list_ascii_of_string b -> a = b.
Proof.
  intros H. rewrite <- (string_of_list_ascii_of_string a), H.
  apply string_of_list_ascii_of_string.
Qed.

Lemma chars_length s : length (list_ascii_of_string s) = String.length s.
Proof. induction s as [|c s IH]; simpl; [done|by f_equal]. Qed.

Lemma endswith_app n suf suf' :
  String.length suf = String.length suf' ->
  PyStr.endswith (n +:+ suf) suf' = bool_decide (suf = suf').
Proof.
  intros Hlen. unfold PyStr.endswith. rewrite chars_app.
  apply bool_decide_ext. split.
  - intros [k Hk]. apply app_inj_2 in Hk as [_ Hk].
    + by apply chars_inj.
    + by rewrite !chars_length.
  - intros ->. by apply suffix_app_r.
Qed.

Lemma drop_last_app n suf :
  PyStr.drop_last (String.length suf) (n +:+ suf) = n.
Proof.
  unfold PyStr.drop_last. rewrite chars_app, length_app, <- (chars_length suf).
  replace (_ + _ - _)%nat with (length (list_ascii_of_string n)) by lia.
  rewrite take_app_length. apply string_of_list_ascii_of_string.
Qed.

Lemma endswith_split s suf :
  PyStr.endswith s suf = true ->
  s = PyStr.drop_last (String.length suf) s +:+ suf.
Proof.
  unfold PyStr.endswith. intros [k Hk]%bool_decide_eq_true.
  assert (s = string_of_list_ascii k +:+ suf) as ->.
  { apply chars_inj. by rewrite chars_app, list_ascii_of_string_of_list_ascii. }
  by rewrite drop_last_app.
Qed.

(** ** The unit converter *)

Section Lengths.
Variable py_float : string -> option float.

Lemma float_of_cases s :
  (exists x, py_float s = Some x /\ float_of py_float s = Ok x) \/
  (py_float s = None /\ float_of py_float s = Raise (ValueError msg_not_a_float)).
Proof. unfold float_of. destruct (py_float s); eauto. Qed.

Lemma parse_step n suf suffix rest :
  String.length suf = String.length suffix ->
  parse_suffixes py_float (n +:+ suf) (suffix :: rest) =
    if bool_decide (suf = suffix) then
      num ← float_of py_float n;
      match convert suffix num with
      | Some px => Ok px
      | None => parse_suffixes py_float (n +:+ suf) rest
      end
    else parse_suffixes py_float (n +:+ suf) rest.
Proof.
  intros Hlen. cbn [parse_suffixes]. rewrite endswith_app by done.
  case_bool_decide as E; [|done]. subst suffix. by rewrite drop_last_app.
Qed.

(** What the suffix loop does on a string that carries the tag [u]. *)
Lemma parse_tagged u n :
  parse_suffixes py_float (n +:+ Spec.tag_text u) unit_suffixes
  = (x ← float_of py_float n; Ok (Spec.to_px u x)).
Proof.
  unfold unit_suffixes.
  destruct u; repeat (rewrite parse_step by done; cbn [bool_decide decide_rel]);
    cbn; destruct (float_of py_float n); done.
Qed.

Lemma parse_untagged s :
  (forall u, PyStr.endswith s (Spec.tag_text u) = false) ->
  parse_suffixes py_float s unit_suffixes = float_of py_float s.
Proof.
  intros H. unfold unit_suffixes. cbn [parse_suffixes].
  pose proof (H Spec.Px) as H1. pose proof (H Spec.Mm) as H2.
  pose proof (H Spec.Cm) as H3. pose proof (H Spec.In) as H4.
  cbn [Spec.tag_text] in *. by rewrite H1, H2, H3, H4.
Qed.

Lemma tagged_or_not s :
  (exists u n, s = n +:+ Spec.tag_text u) \/
  (forall u, PyStr.endswith s (Spec.tag_text u) = false).
Proof.
  destruct (PyStr.endswith s "px") eqn:E1;
    [left; exists Spec.Px; eexists; by apply endswith_split|].
  destruct (PyStr.endswith s "mm") eqn:E2;
    [left; exists Spec.Mm; eexists; by apply endswith_split|].
  destruct (PyStr.endswith s "cm") eqn:E3;
    [left; exists Spec.Cm; eexists; by apply endswith_split|].
  destruct (PyStr.endswith s "in") eqn:E4;
    [left; exists Spec.In; eexists; by apply endswith_split|].
  right. by intros [].
Qed.

Lemma parse_suffixes_sound s x :
  parse_suffixes py_float s unit_suffixes = Ok x -> Spec.length_form py_float s x.
Proof.
  destruct (tagged_or_not s) as [(u & n & ->)|Hno].
  - rewrite parse_tagged. destruct (float_of_cases n) as [(y & Hy & ->)| [_ ->]]; [|done].
    cbn. intros [= <-]. by constructor.
  - rewrite parse_untagged by done.
    destruct (float_of_cases s) as [(y & Hy & ->)| [_ ->]]; [|done].
    intros [= <-]. by constructor.
Qed.

Lemma parse_suffixes_complete s x :
  Spec.length_form py_float s x -> parse_suffixes py_float s unit_suffixes = Ok x.
Proof.
  intros [u n y Hy|s' y Hno Hy].
  - rewrite parse_tagged. unfold float_of. by rewrite Hy.
  - rewrite parse_untagged by done. unfold float_of. by rewrite Hy.
Qed.

Lemma parse_suffixes_outcome s :
  (exists x, parse_suffixes py_float s unit_suffixes = Ok x) \/
  parse_suffixes py_float s unit_suffixes = Raise (ValueError msg_not_a_float).
Proof.
  destruct (tagged_or_not s) as [(u & n & ->)|Hno].
  - rewrite parse_tagged. destruct (float_of_cases n) as [(y & Hy & ->)| [_ ->]]; cbn; eauto.
  - rewrite parse_untagged by done.
    destruct (float_of_cases s) as [(y & Hy & ->)| [_ ->]]; eauto.
Qed.

Lemma parse_length_errors v e :
  parse_length py_float v = Raise e ->
  e = ValueError msg_missing_length \/ e = ValueError msg_not_a_float.
Proof.
  destruct v as [s|]; unfold parse_length.
  - destruct (parse_suffixes_outcome (PyStr.strip s)) as [[x ->]| ->]; [done|].
    intros [= <-]. by right.
  - intros [= <-]. by left.
Qed.

Lemma parse_length_total v : parse_length py_float v <> Diverge.
Proof.
  destruct v as [s|]; unfold parse_length; [|done].
  by destruct (parse_suffixes_outcome (PyStr.strip s)) as [[x ->]| ->].
Qed.


Lemma float_of_errors s e :
  float_of py_float s = Raise e -> e = ValueError msg_not_a_float.
Proof. unfold float_of. destruct (py_float s); [done|]. by intros [= <-]. Qed.

Lemma float_of_total s : float_of py_float s <> Diverge.
Proof. unfold float_of. by destruct (py_float s). Qed.

End Lengths.

(** ** The composite builder *)

Section Builder.
Variable py_float : string -> option float.
Variable py_str : float -> string.
Variable read_svg : Path -> Element.

Lemma figabooth_dimensions_ok head_root body_root hw hh bw bh :
  element_dimensions py_float head_root = Ok (hw, hh) ->
  element_dimensions py_float body_root = Ok (bw, bh) ->
  figabooth_dimensions py_float head_root body_root
  = Ok (hw, hh, bw, bh, PyFloat.max hw bw, (hh + bh)%float).
Proof. unfold figabooth_dimensions. by intros -> ->. Qed.

(** C1: when both fragments resolve to dimensions, the composite is
    exactly [max(head width, body width)] wide and exactly
    [head height + body height] high, in the returned record and in
    the attributes of the written graphic; that maximum is one of the
    two widths and, for numbers, not below either. *)
Theorem composite_size head_path body_path output_path hw hh bw bh :
  element_dimensions py_float (read_svg head_path) = Ok (hw, hh) ->
  element_dimensions py_float (read_svg body_path) = Ok (bw, bh) ->
  let total_width := PyFloat.max hw bw in
  let total_height := (hh + bh)%float in
  figabooth_dimensions py_float (read_svg head_path) (read_svg body_path)
  = Ok (hw, hh, bw, bh, total_width, total_height) /\
  (exists fig root,
     combine_order py_float py_str read_svg head_path body_path output_path
     = ([Mkdir (parent output_path); WriteSvg output_path root], Ok fig) /\
     width_px fig = total_width /\ height_px fig = total_height /\
     svg_path fig = output_path /\
     attrib root !! "width" = Some (py_str total_width) /\
     attrib root !! "height" = Some (py_str total_height) /\
     attrib root !! "viewBox"
     = Some ("0 0 " +:+ py_str total_width +:+ " " +:+ py_str total_height)) /\
  (total_width = hw \/ total_width = bw) /\
  (PyFloat.is_nan hw = false -> PyFloat.is_nan bw = false ->
     (hw <=? total_width)%float = true /\ (bw <=? total_width)%float = true).
Proof.
  intros Hh Hb tw th. split; [by apply figabooth_dimensions_ok|]. split; [|split].
  - unfold combine_order.
    rewrite (figabooth_dimensions_ok _ _ _ _ _ _ Hh Hb). cbn.
    eexists _, _. split; [done|]. cbn. by simplify_map_eq.
  - apply max_cases.
  - apply max_upper_bound.
Qed.

(** C2: the head group is translated by [(total width - head width) /
    2] horizontally and 0 vertically, the body group by [(total width
    - body width) / 2] horizontally and the head height vertically;
    a 100x50 head over an 80x60 body gives a 100x110 composite, the
    head at (0, 0) and the body at (10, 50). *)
Theorem composite_offsets head_path body_path output_path hw hh bw bh :
  element_dimensions py_float (read_svg head_path) = Ok (hw, hh) ->
  element_dimensions py_float (read_svg body_path) = Ok (bw, bh) ->
  let total_width := PyFloat.max hw bw in
  let total_height := (hh + bh)%float in
  let head_offset_x := ((total_width - hw) / 2)%float in
  let body_offset_x := ((total_width - bw) / 2)%float in
  (exists fig root head_group body_group,
     combine_order py_float py_str read_svg head_path body_path output_path
     = ([Mkdir (parent output_path); WriteSvg output_path root], Ok fig) /\
     children root = [head_group; body_group] /\
     children head_group = children (read_svg head_path) /\
     children body_group = children (read_svg body_path) /\
     attrib head_group !! "transform"
     = Some ("translate(" +:+ py_str head_offset_x +:+ ",0)") /\
     attrib body_group !! "transform"
     = Some ("translate(" +:+ py_str body_offset_x +:+ "," +:+ py_str hh +:+ ")")) /\
  ((hw, hh, bw, bh) = (100, 50, 80, 60)%float ->
     (total_width, total_height) = (100, 110)%float /\
     head_offset_x = 0%float /\ (body_offset_x, hh) = (10, 50)%float).
Proof.
  intros Hh Hb tw th hx bx. split.
  - unfold combine_order.
    rewrite (figabooth_dimensions_ok _ _ _ _ _ _ Hh Hb). cbn.
    eexists _, _, _, _. split; [reflexivity|]. split; [reflexivity|].
    split; [done|]. split; [done|]. cbn. split; apply lookup_insert_eq.
  - intros [= -> -> -> ->]. done.
Qed.
End Builder.

(** ** The orchestrator: discovery *)

Global Instance by_order_id_trans : Transitive by_order_id.
Proof. intros p q r. unfold by_order_id. apply transitivity. Qed.

Global Instance by_order_id_total : Total by_order_id.
Proof. intros p q. unfold by_order_id. apply total, _. Qed.

Lemma insert_pair_perm p l : insert_pair p l ≡ₚ p :: l.
Proof.
  induction l as [|q l IH]; cbn; [done|].
  case_decide; [done|]. by rewrite IH, Permutation_swap.
Qed.

Lemma sort_pairs_perm l : sort_pairs l ≡ₚ l.
Proof.
  induction l as [|p l IH]; cbn; [done|].
  by rewrite insert_pair_perm, IH.
Qed.

Lemma insert_pair_sorted p l :
  StronglySorted by_order_id l -> StronglySorted by_order_id (insert_pair p l).
Proof.
  induction 1 as [|q l Hl IH Hq]; cbn; [repeat constructor|].
  case_decide as Hpq.
  - constructor; [by constructor|].
    constructor; [done|].
    eapply Forall_impl; [exact Hq|]. intros r Hr. by transitivity q.
  - constructor; [done|].
    rewrite insert_pair_perm. constructor; [|done].
    by destruct (total by_order_id p q).
Qed.

Lemma sort_pairs_sorted l : StronglySorted by_order_id (sort_pairs l).
Proof.
  induction l as [|p l IH]; cbn; [constructor|by apply insert_pair_sorted].
Qed.

Lemma append_inj_l a b c : a +:+ c = b +:+ c -> a = b.
Proof.
  intros H. apply chars_inj.
  apply (f_equal list_ascii_of_string) in H. rewrite !chars_app in H.
  by apply app_inv_tail in H.
Qed.

(** *** Traces of sequenced computations *)

Lemma trace_bind {A B} (m : io A) (k : A -> io B) :
  trace (m ≫= k) =
    trace m ++ match outcome m with Ok a => trace (k a) | _ => [] end.
Proof.
  destruct m as [t [a|e|]]; cbn; [|by rewrite app_nil_r..].
  by destruct (k a).
Qed.

Lemma bind_ok {A B} (t : list event) (a : A) (k : A -> io B) :
  ((t, Ok a) : io A) ≫= k = (t ++ trace (k a), outcome (k a)).
Proof. cbn. by destruct (k a). Qed.

Lemma composites_written_app t1 t2 :
  composites_written (t1 ++ t2) = composites_written t1 ++ composites_written t2.
Proof. apply omap_app. Qed.

Section Discovery.

Variable py_float : string -> option float.
Variable py_str : float -> string.
Variable read_svg : Path -> Element.
Variable listdir : string -> list string.
Variable svg2rlg : Path -> float * float.
Variable mm : float.
Variable A4 : float * float.

Lemma scan_heads_pairs order_dir heads h b order :
  (h, b, order) ∈ (scan_heads listdir order_dir heads).2 <->
  exists head_name,
    head_name ∈ heads /\ order = order_of head_name /\
    h = mkPath order_dir head_name /\
    b = mkPath order_dir (order +:+ "_body.svg") /\
    (order +:+ "_body.svg") ∈ listdir order_dir.
Proof.
  unfold order_of. induction heads as [|nm heads IH]; cbn.
  - split; [by intros ?%elem_of_nil|]. by intros (? & ?%elem_of_nil & _).
  - destruct (scan_heads listdir order_dir heads) as [log pairs]; cbn in *.
    case_bool_decide as Hbody; cbn.
    + rewrite elem_of_cons, IH. setoid_rewrite elem_of_cons. naive_solver.
    + rewrite IH. setoid_rewrite elem_of_cons. naive_solver.
Qed.

Lemma scan_heads_log order_dir heads e :
  e ∈ (scan_heads listdir order_dir heads).1 <->
  exists head_name,
    head_name ∈ heads /\
    ((order_of head_name +:+ "_body.svg") ∉ listdir order_dir) /\
    e = warning_for (order_of head_name).
Proof.
  unfold order_of, warning_for. induction heads as [|nm heads IH]; cbn.
  - split; [by intros ?%elem_of_nil|]. by intros (? & ?%elem_of_nil & _).
  - destruct (scan_heads listdir order_dir heads) as [log pairs]; cbn in *.
    case_bool_decide as Hbody; cbn.
    + rewrite IH. setoid_rewrite elem_of_cons. naive_solver.
    + rewrite elem_of_cons, IH. setoid_rewrite elem_of_cons. naive_solver.
Qed.

Lemma discover_orders_eq order_dir :
  discover_orders listdir order_dir =
    ((scan_heads listdir order_dir (glob_heads listdir order_dir)).1,
     Ok (sort_pairs (scan_heads listdir order_dir (glob_heads listdir order_dir)).2)).
Proof. unfold discover_orders. by destruct (scan_heads _ _ _). Qed.

Lemma combine_order_written h b out :
  composites_written (trace (combine_order py_float py_str read_svg h b out))
    `prefix_of` [out].
Proof.
  unfold combine_order.
  destruct (figabooth_dimensions _ _ _) as [[[[[[hw hh] bw] bh] tw] th]|e|]; cbn;
    [done|apply prefix_nil..].
Qed.

Lemma combine_order_written_ok h b out fig :
  outcome (combine_order py_float py_str read_svg h b out) = Ok fig ->
  composites_written (trace (combine_order py_float py_str read_svg h b out))
  = [out] /\ svg_path fig = out.
Proof.
  unfold combine_order.
  destruct (figabooth_dimensions _ _ _) as [[[[[[hw hh] bw] bh] tw] th]|e|]; cbn;
    [|done..].
  by intros [= <-].
Qed.

Lemma combine_all_written fig_output_dir pairs :
  composites_written (trace (combine_all py_float py_str read_svg fig_output_dir pairs))
    `prefix_of` (fig_path fig_output_dir <$> pairs).
Proof.
  induction pairs as [|[[h b] order] pairs IH]; [done|].
  cbn [combine_all fmap list_fmap]. rewrite trace_bind, composites_written_app.
  destruct (outcome (combine_order _ _ _ _ _ _)) as [fig|e|] eqn:Efig.
  - apply combine_order_written_ok in Efig as [-> _].
    rewrite trace_bind, composites_written_app. cbn.
    apply prefix_cons.
    destruct (outcome (combine_all _ _ _ _ _)); cbn; by rewrite app_nil_r.
  - rewrite app_nil_r.
    etrans; [apply combine_order_written|]. by apply prefix_cons, prefix_nil.
  - rewrite app_nil_r.
    etrans; [apply combine_order_written|]. by apply prefix_cons, prefix_nil.
Qed.

Lemma draw_fig_written g index fig :
  composites_written (trace (draw_fig svg2rlg g index fig)) = [].
Proof.
  unfold draw_fig.
  destruct (py_mod index _) as [sl|e|]; cbn; [|done..].
  destruct (py_floordiv sl _) as [r|e|]; cbn; [|done..].
  destruct (py_mod sl _) as [c|e|]; cbn; [|done..].
  destruct (svg2rlg _) as [dw dh].
  destruct ((sl =? 0)%Z && negb (index =? 0)%Z); cbn;
    destruct ((dw =? 0)%float || (dh =? 0)%float); cbn; try done;
    destruct (py_div _ dw) as [sx|e|]; cbn; try done;
    destruct (py_div _ dh) as [sy|e|]; cbn; done.
Qed.

Lemma draw_figs_written g figs :
  forall index, composites_written (trace (draw_figs svg2rlg g index figs)) = [].
Proof.
  induction figs as [|fig figs IH]; intros index; [done|].
  cbn [draw_figs]. rewrite trace_bind, composites_written_app, draw_fig_written.
  destruct (outcome _); [apply IH|done..].
Qed.

Lemma layout_written K fuel figs pdf :
  composites_written (trace (layout_figabooths svg2rlg mm A4 K fuel figs pdf)) = [].
Proof.
  destruct figs as [|fig0 figs]; [done|]. unfold layout_figabooths.
  destruct (layout_grid mm A4 K fuel fig0) as [g|e|]; [|done..].
  rewrite trace_bind. cbn [lift trace outcome fst snd app].
  rewrite !trace_bind. cbn [emit trace outcome fst snd].
  rewrite !composites_written_app, draw_figs_written. cbn.
  by destruct (outcome _).
Qed.

Lemma scan_heads_written order_dir heads :
  composites_written (scan_heads listdir order_dir heads).1 = [].
Proof.
  induction heads as [|nm heads IH]; cbn; [done|].
  destruct (scan_heads listdir order_dir heads) as [log pairs]; cbn in *.
  by case_bool_decide.
Qed.

Lemma process_orders_written fuel order_dir fig_output_dir pdf_path :
  composites_written
    (trace (process_orders py_float py_str read_svg listdir svg2rlg mm A4
                           fuel order_dir fig_output_dir pdf_path))
    `prefix_of`
    (fig_path fig_output_dir
       <$> sort_pairs (scan_heads listdir order_dir (glob_heads listdir order_dir)).2).
Proof.
  unfold process_orders. rewrite trace_bind, discover_orders_eq.
  cbn [trace outcome fst snd].
  rewrite composites_written_app, scan_heads_written, app_nil_l, trace_bind.
  rewrite composites_written_app.
  destruct (outcome (combine_all _ _ _ _ _)) as [figs|e|];
    rewrite ?layout_written, app_nil_r; apply combine_all_written.
Qed.


End Discovery.

(** ** The orchestrator: placement *)

Lemma pages_started_app t1 t2 :
  pages_started (t1 ++ t2) = (pages_started t1 + pages_started t2)%Z.
Proof. unfold pages_started. rewrite filter_app, length_app. lia. Qed.

Lemma div_step (n d : Z) :
  (1 <= d)%Z -> (1 <= n)%Z ->
  (n / d = (n - 1) / d + if (n mod d =? 0)%Z then 1 else 0)%Z.
Proof.
  intros Hd Hn.
  pose proof (Z.div_mod n d ltac:(lia)) as E1.
  pose proof (Z.mod_pos_bound n d ltac:(lia)) as B1.
  pose proof (Z.div_mod (n - 1) d ltac:(lia)) as E2.
  pose proof (Z.mod_pos_bound (n - 1) d ltac:(lia)) as B2.
  destruct (Z.eqb_spec (n mod d) 0); nia.
Qed.

Section Placement.

Variable svg2rlg : Path -> float * float.
Variable mm : float.
Variable A4 : float * float.

Lemma draw_fig_eq g i fig :
  (1 <= per_page g)%Z -> (1 <= max_cols g)%Z ->
  draw_fig svg2rlg g i fig = (item_events svg2rlg g i fig, Ok tt).
Proof.
  intros Hp Hc. unfold draw_fig, item_events, placed, Spec.breaks_page, py_mod, py_floordiv.
  destruct (Z.eqb_spec (per_page g) 0) as [|_]; [lia|].
  destruct (Z.eqb_spec (max_cols g) 0) as [|_]; [lia|].
  cbn. destruct (svg2rlg (svg_path fig)) as [dw dh].
  destruct ((i mod per_page g =? 0)%Z && negb (i =? 0)%Z); cbn;
    destruct (dw =? 0)%float eqn:Ew; cbn; try done;
    destruct (dh =? 0)%float eqn:Eh; cbn; try done;
    unfold py_div; by rewrite Ew, Eh.
Qed.

Lemma draw_figs_eq g figs :
  (1 <= per_page g)%Z -> (1 <= max_cols g)%Z ->
  forall i,
    draw_figs svg2rlg g i figs =
      (concat (imap (fun k fig => item_events svg2rlg g (i + Z.of_nat k) fig) figs),
       Ok tt).
Proof.
  intros Hp Hc. induction figs as [|fig figs IH]; intros i; [done|].
  cbn [draw_figs]. rewrite draw_fig_eq, IH by done. cbn.
  rewrite Z.add_0_r. do 3 f_equal. apply imap_ext. intros k x _. cbn.
  f_equal. lia.
Qed.

Lemma pages_started_item g i fig :
  pages_started (item_events svg2rlg g i fig)
  = if Spec.breaks_page (per_page g) i then 1%Z else 0%Z.
Proof.
  unfold item_events. rewrite pages_started_app.
  assert (pages_started [placed svg2rlg g i fig] = 0%Z) as ->.
  { unfold placed. destruct (svg2rlg _) as [dw dh]. by destruct (_ || _). }
  by destruct (Spec.breaks_page _ _).
Qed.

(** After the first [n >= 1] composites, [(n - 1) / capacity] pages have
    been started. *)
Lemma pages_started_placements g figs :
  (1 <= per_page g)%Z -> figs <> [] ->
  pages_started (placements svg2rlg g figs)
  = ((Z.of_nat (length figs) - 1) / per_page g)%Z.
Proof.
  intros Hp. unfold placements.
  induction figs as [|fig figs IH] using rev_ind; [done|]. intros _.
  rewrite imap_app, concat_app, pages_started_app. cbn.
  rewrite app_nil_r, pages_started_item, length_app, Nat.add_0_r. cbn [length].
  destruct figs as [|fig' figs'].
  - cbn. rewrite Z.div_small by lia. done.
  - rewrite IH by done. unfold Spec.breaks_page.
    set (n := length (fig' :: figs')).
    replace (Z.of_nat (n + 1) - 1)%Z with (Z.of_nat n) by lia.
    assert (1 <= Z.of_nat n)%Z by (unfold n; cbn [length]; lia).
    rewrite (div_step (Z.of_nat n) (per_page g)) by done.
    destruct (Z.eqb_spec (Z.of_nat n) 0); [lia|].
    by rewrite andb_true_r.
Qed.

Lemma placed_not_show_page g i fig : ShowPage <> placed svg2rlg g i fig.
Proof.
  unfold placed. destruct (svg2rlg _) as [dw dh]. by destruct (_ || _).
Qed.


End Placement.

(** ** The orchestrator: the empty run *)

Section EmptyRun.

Variable py_float : string -> option float.
Variable py_str : float -> string.
Variable read_svg : Path -> Element.
Variable svg2rlg : Path -> float * float.
Variable mm : float.
Variable A4 : float * float.

Lemma discovery_leaves_canvas listdir order_dir :
  Forall (fun e => touches_canvas e = false)
         (trace (discover_orders listdir order_dir)).
Proof.
  rewrite discover_orders_eq. cbn [trace fst]. apply Forall_forall.
  by intros e (nm & _ & _ & ->)%scan_heads_log.
Qed.

(** C9: given no composites the layout stage only logs that it skips
    the document: it opens no canvas, draws and saves nothing, and
    returns; a run over an empty directory is exactly that, writes no
    composite either, and exits with status 0.  The same holds whenever
    discovery pairs nothing. *)
Theorem empty_run_skips_the_document K fuel order_dir fig_output_dir pdf_path :
  let skipped := LogInfo "No figabooths generated; skipping PDF creation." in
  layout_figabooths svg2rlg mm A4 K fuel [] pdf_path = ([skipped], Ok tt) /\
  (let run := main py_float py_str read_svg (fun _ => []) svg2rlg mm A4
                   fuel order_dir fig_output_dir pdf_path in
   run = ([skipped], Ok tt) /\ exit_status run = Some 0%Z /\
   Forall (fun e => touches_canvas e = false) (trace run) /\
   composites_written (trace run) = []) /\
  (forall listdir,
     outcome (discover_orders listdir order_dir) = Ok [] ->
     let run := main py_float py_str read_svg listdir svg2rlg mm A4
                     fuel order_dir fig_output_dir pdf_path in
     run = (trace (discover_orders listdir order_dir) ++ [skipped], Ok tt) /\
     exit_status run = Some 0%Z /\
     Forall (fun e => touches_canvas e = false) (trace run) /\
     composites_written (trace run) = []).
Proof.
  intros skipped. split; [done|]. split.
  - cbn. split; [done|]. split; [done|]. split; [|done].
    by repeat constructor.
  - intros listdir Hnone run.
    assert (run = (trace (discover_orders listdir order_dir) ++ [skipped], Ok tt))
      as Hrun.
    { unfold run, main, process_orders.
      destruct (discover_orders listdir order_dir) as [log r] eqn:E.
      cbn in Hnone. subst r. by rewrite bind_ok. }
    split; [done|]. rewrite Hrun. split; [done|]. cbn [trace fst]. split.
    + apply Forall_app. split; [apply discovery_leaves_canvas|].
      by repeat constructor.
    + rewrite composites_written_app, discover_orders_eq. cbn [trace fst].
      by rewrite scan_heads_written.
Qed.

End EmptyRun.

(** * Worked examples *)

(** The scenario of the specification: on a page 400 wide with the
    grid starting at 20, composites 100 wide overlapping by 10 step by
    90 and fit in floor(280 / 90) + 1 = 4 columns. *)
Example four_columns :
  Spec.step_x 100 10 = 90%float /\
  Spec.columns 400 20 100 (Spec.step_x 100 10) = Ok 4%Z.
Proof. split; by vm_compute. Qed.

(** A composite of zero width makes the column formula divide by zero. *)
Example zero_width_divides_by_zero :
  layout_grid reportlab_mm reportlab_A4 source_constants 20
    {| order_id := "z"; svg_path := Demo.a_out; width_px := 0; height_px := 110 |}
  = Raise ZeroDivisionError.
Proof. by vm_compute. Qed.

(** Subtracting 1 from 1e300 rounds back to 1e300: the row loop does not
    terminate on every non-negative start and positive row height. *)
Example huge_start_never_ends :
  forall fuel, count_rows fuel 0 1e300 1 = Diverge.
Proof. intros fuel. by apply count_rows_stuck. Qed.

(** A composite of height -78.383 pixels cancels the vertical spacing:
    the row height is 0 and the planner never returns. *)
Example zero_row_height_hangs :
  forall fuel,
    layout_grid reportlab_mm reportlab_A4 source_constants fuel
      {| order_id := "n"; svg_path := Demo.a_out;
         width_px := 100; height_px := -78.383 |}
    = Diverge.
Proof.
  intros fuel. rewrite layout_grid_eq.
  rewrite count_rows_stuck; [by vm_compute|by vm_compute|by vm_compute].
Qed.

(** The a-order of the demonstration directory: a 100x50 head over an
    80x60 body is a 100x110 composite. *)
Lemma composite_size_witness :
  exists fig root,
    combine_order Demo.float_of_digits Demo.str_of_float Demo.order_files
                  Demo.a_head Demo.a_body Demo.a_out
    = ([Mkdir "out"; WriteSvg Demo.a_out root], Ok fig) /\
    width_px fig = 100%float /\ height_px fig = 110%float /\
    attrib root !! "width" = Some "100.0" /\
    attrib root !! "height" = Some "110.0" /\
    attrib root !! "viewBox" = Some "0 0 100.0 110.0".
Proof.
  destruct (composite_size Demo.float_of_digits Demo.str_of_float
              Demo.order_files Demo.a_head Demo.a_body Demo.a_out
              100 50 80 60 ltac:(by vm_compute) ltac:(by vm_compute))
    as (_ & (fig & root & Hrun & Hw & Hh & _ & Aw & Ah & Av) & _).
  exists fig, root. split; [exact Hrun|].
  split; [exact Hw|]. split; [exact Hh|].
  split; [exact Aw|]. split; [exact Ah|exact Av].
Defined.

(** In it the head sits at (0, 0) and the body at (10, 50). *)
Lemma composite_offsets_witness :
  exists fig root head_group body_group,
    combine_order Demo.float_of_digits Demo.str_of_float Demo.order_files
                  Demo.a_head Demo.a_body Demo.a_out
    = ([Mkdir "out"; WriteSvg Demo.a_out root], Ok fig) /\
    children root = [head_group; body_group] /\
    attrib head_group !! "transform" = Some "translate(0.0,0)" /\
    attrib body_group !! "transform" = Some "translate(10.0,50.0)".
Proof.
  destruct (composite_offsets Demo.float_of_digits Demo.str_of_float
              Demo.order_files Demo.a_head Demo.a_body Demo.a_out
              100 50 80 60 ltac:(by vm_compute) ltac:(by vm_compute))
    as ((fig & root & hg & bg & Hrun & Hc & _ & _ & Th & Tb) & _).
  exists fig, root, hg, bg. split; [exact Hrun|].
  split; [exact Hc|]. split; [exact Th|exact Tb].
Defined.







(** * Further properties of the script *)

(** ** clone_as_group *)

Lemma lookup_delete_all (m : gmap string string) (ks : list string) (k : string) :
  foldl (fun a k' => delete k' a) m ks !! k
  = if bool_decide (k ∈ ks) then None else m !! k.
Proof.
  revert m. induction ks as [|k' ks IH]; intros m; cbn [foldl].
  - rewrite bool_decide_eq_false_2; [done|]. by intros ?%elem_of_nil.
  - rewrite IH, lookup_delete. destruct (decide (k' = k)) as [->|Hne].
    + rewrite (bool_decide_eq_true_2 (k ∈ k :: ks)) by by left.
      by case_bool_decide.
    + rewrite (bool_decide_ext (k ∈ k' :: ks) (k ∈ ks)); [done|].
      rewrite elem_of_cons. naive_solver.
Qed.

Section BuilderFailures.

Variable py_float : string -> option float.
Variable py_str : float -> string.
Variable read_svg : Path -> Element.

(** X1: the group cloned from an element carries the tag [g], the
    element's children and all its attributes except width, height,
    viewBox, x and y, which it never carries; so a group declares no
    size of its own and asking for its dimensions raises the
    "must declare" error. *)
Theorem clone_as_group_strips_size (element : Element) :
  let group := clone_as_group element in
  let size_keys := ["width"; "height"; "viewBox"; "x"; "y"] in
  tag group = svg_tag "g" /\
  children group = children element /\
  (forall k, k ∈ size_keys -> attrib group !! k = None) /\
  (forall k, k ∉ size_keys -> attrib group !! k = attrib element !! k) /\
  element_dimensions py_float group = Raise (ValueError msg_missing_dimensions).
Proof.
  intros group size_keys. split; [done|]. split; [done|].
  assert (forall k, attrib group !! k
                    = if bool_decide (k ∈ size_keys) then None
                      else attrib element !! k) as Hlook.
  { intros k. apply lookup_delete_all. }
  split; [|split].
  - intros k Hk. by rewrite Hlook, bool_decide_eq_true_2.
  - intros k Hk. by rewrite Hlook, bool_decide_eq_false_2.
  - unfold element_dimensions.
    rewrite (Hlook "width"), (Hlook "viewBox"). done.
Qed.

Lemma element_dimensions_errors root e :
  element_dimensions py_float root = Raise e ->
  e = ValueError msg_missing_length \/ e = ValueError msg_not_a_float \/
  e = ValueError msg_missing_dimensions.
Proof.
  unfold element_dimensions.
  destruct (PyStr.truthy (attrib root !! "width") &&
            PyStr.truthy (attrib root !! "height")).
  - destruct (parse_length py_float (attrib root !! "width")) as [w|e'|] eqn:Ew;
      cbn; [|intros [= <-]; apply parse_length_errors in Ew; tauto|done].
    destruct (parse_length py_float (attrib root !! "height")) as [h|e'|] eqn:Eh;
      cbn; [done|intros [= <-]; apply parse_length_errors in Eh; tauto|done].
  - destruct (PyStr.truthy (attrib root !! "viewBox")); [|intros [= <-]; tauto].
    set (parts := PyStr.split _).
    destruct (length parts =? 4)%nat; [|intros [= <-]; tauto].
    destruct (float_of py_float (nth 2 parts "")) as [w|e'|] eqn:Ew;
      cbn; [|intros [= <-]; apply float_of_errors in Ew; tauto|done].
    destruct (float_of py_float (nth 3 parts "")) as [h|e'|] eqn:Eh;
      cbn; [done|intros [= <-]; apply float_of_errors in Eh; tauto|done].
Qed.

Lemma element_dimensions_total root :
  element_dimensions py_float root <> Diverge.
Proof.
  unfold element_dimensions.
  destruct (PyStr.truthy (attrib root !! "width") &&
            PyStr.truthy (attrib root !! "height")).
  - destruct (parse_length py_float (attrib root !! "width")) as [w|e'|] eqn:Ew;
      cbn; [|done|by apply parse_length_total in Ew].
    destruct (parse_length py_float (attrib root !! "height")) as [h|e'|] eqn:Eh;
      cbn; [done|done|by apply parse_length_total in Eh].
  - destruct (PyStr.truthy (attrib root !! "viewBox")); [|done].
    set (parts := PyStr.split _).
    destruct (length parts =? 4)%nat; [|done].
    destruct (float_of py_float (nth 2 parts "")) as [w|e'|] eqn:Ew;
      cbn; [|done|by apply float_of_total in Ew].
    destruct (float_of py_float (nth 3 parts "")) as [h|e'|] eqn:Eh;
      cbn; [done|done|by apply float_of_total in Eh].
Qed.


End BuilderFailures.

(** ** File names and order ids *)

Lemma append_assoc a b c : (a +:+ b) +:+ c = a +:+ (b +:+ c).
Proof. apply chars_inj. by rewrite !chars_app, app_assoc. Qed.

Lemma rfind_dot_app l1 l2 :
  forall i,
    rfind_dot i (l1 ++ l2) =
      match rfind_dot (i + length l1) l2 with
      | Some j => Some j
      | None => rfind_dot i l1
      end.
Proof.
  induction l1 as [|c l1 IH]; intros i; cbn [app length rfind_dot].
  - rewrite Nat.add_0_r. by destruct (rfind_dot i l2).
  - rewrite IH. replace (S i + length l1)%nat with (i + S (length l1))%nat by lia.
    by destruct (rfind_dot _ l2).
Qed.

(** The stem of a name that ends in [.svg] is what stands before it. *)
Lemma stem_of_svg base : base <> "" -> stem_of (base +:+ ".svg") = base.
Proof.
  intros Hbase. unfold stem_of. rewrite chars_app, rfind_dot_app. cbn [rfind_dot].
  change (Ascii.eqb "." ".") with true. cbn match.
  change (list_ascii_of_string ".svg") with ["."; "s"; "v"; "g"]%char.
  cbn [rfind_dot Ascii.eqb Bool.eqb]. cbn match. rewrite Nat.add_0_l.
  assert (0 < length (list_ascii_of_string base))%nat as Hlen.
  { destruct base; [done|cbn; lia]. }
  rewrite length_app. cbn [length].
  destruct (Nat.ltb_spec 0 (length (list_ascii_of_string base))); [|lia].
  destruct (Nat.ltb_spec (length (list_ascii_of_string base))
              (length (list_ascii_of_string base) + 4 - 1)); [|lia].
  cbn [andb]. rewrite take_app_length. apply string_of_list_ascii_of_string.
Qed.

Lemma append_nonempty a b : b <> "" -> a +:+ b <> "".
Proof.
  intros Hb E. apply (f_equal String.length) in E.
  rewrite <- chars_length, chars_app, length_app, !chars_length in E.
  destruct b; [done|cbn in E; lia].
Qed.

Lemma order_of_head order : order_of (order +:+ "_head.svg") = order.
Proof.
  unfold order_of. change "_head.svg" with ("_head" +:+ ".svg").
  rewrite <- append_assoc, stem_of_svg by by apply append_nonempty.
  change 5%nat with (String.length "_head"). apply drop_last_app.
Qed.

Lemma head_of_order head_name :
  PyStr.endswith head_name "_head.svg" = true ->
  head_name = order_of head_name +:+ "_head.svg".
Proof.
  intros H%endswith_split. rewrite H at 2. by rewrite order_of_head.
Qed.

(** X3: the order id of a head file is its name without the final
    [_head.svg], whatever dots or underscores the id contains: every id
    is recovered from the head name built from it, every head name the
    glob matches is its id followed by [_head.svg], and so two
    different head files never stand for the same order. *)
Theorem order_id_round_trip :
  (forall order, order_of (order +:+ "_head.svg") = order) /\
  (forall head_name,
     PyStr.endswith head_name "_head.svg" = true ->
     head_name = order_of head_name +:+ "_head.svg") /\
  (forall head_name head_name',
     PyStr.endswith head_name "_head.svg" = true ->
     PyStr.endswith head_name' "_head.svg" = true ->
     order_of head_name = order_of head_name' -> head_name = head_name').
Proof.
  split; [apply order_of_head|]. split; [apply head_of_order|].
  intros nm nm' H H' E. rewrite (head_of_order nm H), (head_of_order nm' H').
  by rewrite E.
Qed.

(** The three claims of the round trip on a name with dots in its id. *)
Lemma order_id_round_trip_witness :
  order_of "2024.05_x_head.svg" = "2024.05_x" /\
  "2024.05_x_head.svg" = order_of "2024.05_x_head.svg" +:+ "_head.svg".
Proof.
  destruct order_id_round_trip as (Hid & Hname & _).
  split; [exact (Hid "2024.05_x")|].
  exact (Hname "2024.05_x_head.svg" ltac:(by vm_compute)).
Defined.

(** ** The order id kept in a Figabooth *)

Lemma mark_has_no_border (s t : list ascii) :
  figabooth_mark = s ++ "_"%char :: t -> s = [].
Proof.
  unfold figabooth_mark. cbn.
  do 11 (destruct s as [|? s]; [done|]; cbn; intros [= <- H]; revert H; try done).
Qed.

Lemma mark_not_ahead (cs rest : list ascii) :
  cs <> [] ->
  (forall a b, cs <> a ++ figabooth_mark ++ b) ->
  figabooth_mark `prefix_of` rest ->
  take (length figabooth_mark) (cs ++ rest) <> figabooth_mark.
Proof.
  intros Hne Hfree [r ->] Htake.
  destruct (decide (length figabooth_mark <= length cs)%nat) as [Hlong|Hshort].
  - rewrite take_app_le in Htake by done.
    apply (Hfree [] (drop (length figabooth_mark) cs)).
    pose proof (take_drop (length figabooth_mark) cs) as E.
    rewrite Htake in E. by rewrite app_nil_l.
  - rewrite take_app_ge, take_app_le in Htake by (cbn in *; lia).
    assert (exists k, length figabooth_mark - length cs = S k)%nat as [k Hk]
      by (exists (length figabooth_mark - length cs - 1)%nat; lia).
    rewrite Hk in Htake. cbn [figabooth_mark list_ascii_of_string take] in Htake.
    symmetry in Htake. by apply mark_has_no_border in Htake.
Qed.

Lemma remove_go_free (cs rest : list ascii) :
  (forall a b, cs <> a ++ figabooth_mark ++ b) ->
  figabooth_mark `prefix_of` rest ->
  PyStr.remove_go figabooth_mark 0 (cs ++ rest)
  = cs ++ PyStr.remove_go figabooth_mark 0 rest.
Proof.
  induction cs as [|c cs IH]; intros Hfree Hrest; [done|].
  cbn [app PyStr.remove_go].
  rewrite bool_decide_eq_false_2.
  - f_equal. apply IH; [|done]. intros a b ->. by apply (Hfree (c :: a) b).
  - by apply (mark_not_ahead (c :: cs) rest).
Qed.

Lemma remove_mark_after (order : string) (rest : list ascii) :
  ~ occurs_in "_figabooth" order ->
  figabooth_mark `prefix_of` rest ->
  PyStr.remove_go figabooth_mark 0 (list_ascii_of_string order ++ rest)
  = list_ascii_of_string order ++ PyStr.remove_go figabooth_mark 0 rest.
Proof.
  intros Hfree Hrest. apply remove_go_free; [|done].
  intros a b E. apply Hfree.
  exists (string_of_list_ascii a), (string_of_list_ascii b).
  apply chars_inj. by rewrite !chars_app, !list_ascii_of_string_of_list_ascii.
Qed.

Lemma stem_of_fig_name order :
  stem_of (order +:+ "_figabooth.svg") = order +:+ "_figabooth".
Proof.
  change "_figabooth.svg" with ("_figabooth" +:+ ".svg").
  rewrite <- append_assoc. apply stem_of_svg. by apply append_nonempty.
Qed.

Section FigaboothRecord.

Variable py_float : string -> option float.
Variable py_str : float -> string.
Variable read_svg : Path -> Element.

Lemma combine_order_ok_inv h b out fig :
  outcome (combine_order py_float py_str read_svg h b out) = Ok fig ->
  (exists hw hh bw bh,
     figabooth_dimensions py_float (read_svg h) (read_svg b)
     = Ok (hw, hh, bw, bh, width_px fig, height_px fig)) /\
  svg_path fig = out /\
  order_id fig = PyStr.remove_all "_figabooth" (stem out) /\
  exists root,
    trace (combine_order py_float py_str read_svg h b out)
    = [Mkdir (parent out); WriteSvg out root].
Proof.
  unfold combine_order.
  destruct (figabooth_dimensions _ _ _) as [[[[[[hw hh] bw] bh] tw] th]|e|]; cbn;
    [|done..].
  intros [= <-]. cbn. split; [by exists hw, hh, bw, bh|]. eauto.
Qed.

(** X4: the order id kept in the [Figabooth] record is read back from
    the output file name by deleting every [_figabooth] in its stem.
    For a composite written to [<id>_figabooth.svg] it is the id itself
    when the id does not contain [_figabooth], and an id of the form
    [<x>_figabooth] is cut down to [x]. *)
Theorem figabooth_order_id h b dir order fig :
  outcome (combine_order py_float py_str read_svg h b
             (mkPath dir (order +:+ "_figabooth.svg"))) = Ok fig ->
  (~ occurs_in "_figabooth" order -> order_id fig = order) /\
  (forall x, ~ occurs_in "_figabooth" x -> order = x +:+ "_figabooth" ->
     order_id fig = x).
Proof.
  intros (_ & _ & Hid & _)%combine_order_ok_inv.
  unfold stem in Hid. cbn [name] in Hid. rewrite stem_of_fig_name in Hid.
  unfold PyStr.remove_all in Hid. rewrite chars_app in Hid.
  change (list_ascii_of_string "_figabooth") with figabooth_mark in Hid.
  split.
  - intros Hfree. rewrite remove_mark_after in Hid by done.
    change (PyStr.remove_go figabooth_mark 0 figabooth_mark) with (@nil ascii) in Hid.
    by rewrite app_nil_r, string_of_list_ascii_of_string in Hid.
  - intros x Hfree ->. rewrite chars_app, <- app_assoc in Hid.
    change (list_ascii_of_string "_figabooth") with figabooth_mark in Hid.
    rewrite remove_mark_after in Hid by (done || by apply prefix_app_r).
    change (PyStr.remove_go figabooth_mark 0 (figabooth_mark ++ figabooth_mark))
      with (@nil ascii) in Hid.
    by rewrite app_nil_r, string_of_list_ascii_of_string in Hid.
Qed.

End FigaboothRecord.

Lemma short_names_are_free (s : string) :
  (String.length s < 10)%nat -> ~ occurs_in "_figabooth" s.
Proof.
  intros Hlen (a & b & E). apply (f_equal String.length) in E.
  rewrite <- !chars_length, !chars_app, !length_app, !chars_length in E.
  cbn in E. lia.
Qed.

(** Order a of the demonstration directory keeps its id, and so would
    an order named [a_figabooth] lose its suffix. *)
Lemma figabooth_order_id_witness :
  (exists fig,
     outcome (combine_order Demo.float_of_digits Demo.str_of_float Demo.order_files
                Demo.a_head Demo.a_body Demo.a_out) = Ok fig /\
     order_id fig = "a") /\
  (exists fig,
     outcome (combine_order Demo.float_of_digits Demo.str_of_float Demo.order_files
                Demo.a_head Demo.a_body
                (mkPath "out" ("a_figabooth" +:+ "_figabooth.svg"))) = Ok fig /\
     order_id fig = "a").
Proof.
  split.
  - destruct (outcome (combine_order Demo.float_of_digits Demo.str_of_float
                Demo.order_files Demo.a_head Demo.a_body Demo.a_out))
      as [fig| |] eqn:E; [|by vm_compute in E..].
    exists fig. split; [reflexivity|].
    exact (proj1 (figabooth_order_id Demo.float_of_digits Demo.str_of_float
                    Demo.order_files Demo.a_head Demo.a_body "out" "a" fig E)
                 (short_names_are_free "a" ltac:(cbn; lia))).
  - destruct (outcome (combine_order Demo.float_of_digits Demo.str_of_float
                Demo.order_files Demo.a_head Demo.a_body
                (mkPath "out" ("a_figabooth" +:+ "_figabooth.svg"))))
      as [fig| |] eqn:E; [|by vm_compute in E..].
    exists fig. split; [reflexivity|].
    exact (proj2 (figabooth_order_id Demo.float_of_digits Demo.str_of_float
                    Demo.order_files Demo.a_head Demo.a_body "out" "a_figabooth"
                    fig E)
                 "a" (short_names_are_free "a" ltac:(cbn; lia)) eq_refl).
Defined.

(** ** Runs that fail *)

Section Runs.

Variable py_float : string -> option float.
Variable py_str : float -> string.
Variable read_svg : Path -> Element.
Variable listdir : string -> list string.
Variable svg2rlg : Path -> float * float.
Variable mm : float.
Variable A4 : float * float.

Local Abbreviation combine := (combine_order py_float py_str read_svg).
Local Abbreviation combine_pairs := (combine_all py_float py_str read_svg).

Local Abbreviation built := (built_from py_float read_svg).

Lemma combine_all_cons dir h b order rest :
  combine_pairs dir ((h, b, order) :: rest) =
    (fig ← combine h b (fig_path dir (h, b, order));
     figabooths ← combine_pairs dir rest;
     mret (fig :: figabooths)).
Proof. done. Qed.

Lemma combine_all_ok dir pairs figs :
  outcome (combine_pairs dir pairs) = Ok figs ->
  Forall2 (built dir) pairs figs /\
  composites_written (trace (combine_pairs dir pairs)) = fig_path dir <$> pairs.
Proof.
  revert figs. induction pairs as [|[[h b] order] pairs IH]; intros figs.
  - intros [= <-]. by split; [constructor|].
  - rewrite combine_all_cons.
    destruct (combine h b _) as [t [fig| |]] eqn:Efig; [|done..].
    rewrite bind_ok. cbn [outcome trace fst snd].
    destruct (combine_pairs dir pairs) as [t' [figs'| |]] eqn:Erest; [|done..].
    rewrite bind_ok. cbn [outcome trace fst snd mret io_ret].
    intros [= <-].
    destruct (IH figs' eq_refl) as [Hall Hw].
    assert (outcome (combine h b (fig_path dir (h, b, order))) = Ok fig) as Hok
      by by rewrite Efig.
    pose proof (combine_order_written_ok _ _ _ _ _ _ _ Hok) as [Hwritten _].
    apply combine_order_ok_inv in Hok as (Hdim & Hpath & _ & _).
    rewrite Efig in Hwritten. cbn [trace fst] in Hwritten, Hw.
    split.
    + constructor; [by split|done].
    + rewrite !composites_written_app, Hwritten, Hw. cbn. by rewrite app_nil_r.
Qed.

Lemma combine_all_abort dir pre p post figs e :
  outcome (combine_pairs dir pre) = Ok figs ->
  outcome (combine p.1.1 p.1.2 (fig_path dir p)) = Raise e ->
  outcome (combine_pairs dir (pre ++ p :: post)) = Raise e /\
  composites_written (trace (combine_pairs dir (pre ++ p :: post)))
  = fig_path dir <$> pre.
Proof.
  revert figs. induction pre as [|[[h b] order] pre IH]; intros figs Hpre Hp.
  - destruct p as [[h b] order]. cbn [app]. rewrite combine_all_cons.
    cbn [fst snd] in Hp.
    pose proof (combine_order_written py_float py_str read_svg h b
                  (fig_path dir (h, b, order))) as Hw.
    destruct (combine h b _) as [t [fig| |]] eqn:Efig; try done.
    cbn in Hp. injection Hp as ->. cbn. split; [done|].
    unfold combine_order in Efig.
    destruct (figabooth_dimensions _ _ _) as [[[[[[? ?] ?] ?] ?] ?]| |];
      cbn in Efig; by injection Efig as <-.
  - cbn [app]. rewrite combine_all_cons. rewrite combine_all_cons in Hpre.
    destruct (combine h b _) as [t [fig| |]] eqn:Efig; [|done..].
    rewrite bind_ok in Hpre. rewrite bind_ok. cbn [outcome trace fst snd] in *.
    destruct (combine_pairs dir pre) as [t' [figs'| |]] eqn:Erest; [|done..].
    destruct (IH figs' eq_refl Hp) as [Hout Hw].
    destruct (combine_pairs dir (pre ++ p :: post)) as [t'' r''] eqn:Eall.
    cbn [outcome trace fst snd] in Hout, Hw. subst r''. cbn.
    split; [done|].
    assert (outcome (combine h b (fig_path dir (h, b, order))) = Ok fig) as Hok
      by by rewrite Efig.
    pose proof (combine_order_written_ok _ _ _ _ _ _ _ Hok) as [Hwritten _].
    rewrite Efig in Hwritten. cbn [trace fst] in Hwritten.
    by rewrite composites_written_app, Hwritten, Hw.
Qed.

Lemma combine_order_leaves_canvas h b out :
  Forall (fun ev => touches_canvas ev = false) (trace (combine h b out)).
Proof.
  unfold combine_order.
  destruct (figabooth_dimensions _ _ _) as [[[[[[? ?] ?] ?] ?] ?]| |]; cbn;
    by repeat constructor.
Qed.

Lemma combine_all_leaves_canvas dir pairs :
  Forall (fun ev => touches_canvas ev = false) (trace (combine_pairs dir pairs)).
Proof.
  induction pairs as [|[[h b] order] pairs IH]; [by constructor|].
  rewrite combine_all_cons, trace_bind. apply Forall_app.
  split; [apply combine_order_leaves_canvas|].
  destruct (outcome (combine h b _)); [|by constructor..].
  rewrite trace_bind. apply Forall_app. split; [done|].
  destruct (outcome (combine_pairs dir pairs)); by constructor.
Qed.

(** The run is discovery, then the composites, then the layout of the
    composites that were built. *)
Lemma process_orders_trace fuel order_dir fig_output_dir pdf_path pairs :
  outcome (discover_orders listdir order_dir) = Ok pairs ->
  process_orders py_float py_str read_svg listdir svg2rlg mm A4
                 fuel order_dir fig_output_dir pdf_path
  = (trace (discover_orders listdir order_dir)
       ++ trace (combine_pairs fig_output_dir pairs)
       ++ match outcome (combine_pairs fig_output_dir pairs) with
          | Ok figs => trace (layout_figabooths svg2rlg mm A4 source_constants fuel
                                                figs pdf_path)
          | _ => []
          end,
     match outcome (combine_pairs fig_output_dir pairs) with
     | Ok figs => outcome (layout_figabooths svg2rlg mm A4 source_constants fuel
                                             figs pdf_path)
     | Raise e => Raise e
     | Diverge => Diverge
     end).
Proof.
  intros Hd. unfold process_orders.
  destruct (discover_orders listdir order_dir) as [log r]. cbn in Hd. subst r.
  rewrite bind_ok. cbn [trace outcome fst snd].
  destruct (combine_pairs fig_output_dir pairs) as [t [figs|e|]]; cbn;
    [|by rewrite app_nil_r..].
  by destruct (layout_figabooths _ _ _ _ _ _ _).
Qed.

(** X5: there is no isolation between pairs.  When the composite of a
    pair cannot be built, the run raises that pair's error and exits
    with status 1; the composites of the pairs before it have been
    written, none after it is, and the document is never started. *)
Theorem run_stops_at_first_failure
        fuel order_dir fig_output_dir pdf_path pre p post figs e :
  outcome (discover_orders listdir order_dir) = Ok (pre ++ p :: post) ->
  outcome (combine_pairs fig_output_dir pre) = Ok figs ->
  outcome (combine p.1.1 p.1.2 (fig_path fig_output_dir p)) = Raise e ->
  let run := main py_float py_str read_svg listdir svg2rlg mm A4
                  fuel order_dir fig_output_dir pdf_path in
  outcome run = Raise e /\ exit_status run = Some 1%Z /\
  composites_written (trace run) = fig_path fig_output_dir <$> pre /\
  Forall (fun ev => touches_canvas ev = false) (trace run).
Proof.
  intros Hd Hpre Hp run. unfold run, main.
  rewrite (process_orders_trace _ _ _ _ _ Hd).
  destruct (combine_all_abort fig_output_dir pre p post figs e Hpre Hp)
    as [Hout Hw].
  unfold exit_status. cbn [outcome trace fst snd]. rewrite Hout.
  split; [done|]. split; [done|]. split.
  - rewrite app_nil_r, composites_written_app, Hw, discover_orders_eq.
    cbn [trace fst]. by rewrite scan_heads_written.
  - rewrite app_nil_r. apply Forall_app.
    split; [apply (discovery_leaves_canvas py_float py_str mm)|apply combine_all_leaves_canvas].
Qed.

(** X6: when every pair can be combined, the run writes exactly one
    composite per discovered pair, in the order of the pairs, each of
    the size its two files give, and hands those composites, in that
    order, to the layout, whose outcome is the outcome of the run. *)
Theorem every_pair_gets_a_composite
        fuel order_dir fig_output_dir pdf_path pairs figs :
  outcome (discover_orders listdir order_dir) = Ok pairs ->
  outcome (combine_pairs fig_output_dir pairs) = Ok figs ->
  let run := main py_float py_str read_svg listdir svg2rlg mm A4
                  fuel order_dir fig_output_dir pdf_path in
  let sheet := layout_figabooths svg2rlg mm A4 source_constants fuel figs pdf_path in
  Forall2 (built_from py_float read_svg fig_output_dir) pairs figs /\
  composites_written (trace run) = fig_path fig_output_dir <$> pairs /\
  outcome run = outcome sheet /\
  trace run = trace (discover_orders listdir order_dir)
                ++ trace (combine_pairs fig_output_dir pairs) ++ trace sheet.
Proof.
  intros Hd Hc run sheet. unfold run, main.
  rewrite (process_orders_trace _ _ _ _ _ Hd), Hc. cbn [outcome trace fst snd].
  destruct (combine_all_ok _ _ _ Hc) as [Hall Hw].
  split; [done|]. split; [|done].
  rewrite !composites_written_app, Hw, layout_written, app_nil_r, discover_orders_eq.
  cbn [trace fst]. by rewrite scan_heads_written.
Qed.

(** X7: when the planner raises (a composite of width 0 makes it divide
    by zero), the run exits with status 1 after all composites have been
    written and before the output directory of the document is created
    or its canvas opened. *)
Theorem planner_failure_leaves_no_document
        fuel order_dir fig_output_dir pdf_path pairs fig0 rest e :
  outcome (discover_orders listdir order_dir) = Ok pairs ->
  outcome (combine_pairs fig_output_dir pairs) = Ok (fig0 :: rest) ->
  layout_grid mm A4 source_constants fuel fig0 = Raise e ->
  let run := main py_float py_str read_svg listdir svg2rlg mm A4
                  fuel order_dir fig_output_dir pdf_path in
  outcome run = Raise e /\ exit_status run = Some 1%Z /\
  composites_written (trace run) = fig_path fig_output_dir <$> pairs /\
  Forall (fun ev => touches_canvas ev = false) (trace run) /\
  trace run = trace (discover_orders listdir order_dir)
                ++ trace (combine_pairs fig_output_dir pairs).
Proof.
  intros Hd Hc Hg run. unfold run, main.
  rewrite (process_orders_trace _ _ _ _ _ Hd), Hc.
  unfold layout_figabooths. rewrite Hg. unfold exit_status.
  cbn [lift mbind io_bind outcome trace fst snd]. rewrite app_nil_r.
  destruct (combine_all_ok _ _ _ Hc) as [_ Hw].
  split; [done|]. split; [done|]. split; [|split].
  - rewrite composites_written_app, Hw, discover_orders_eq.
    cbn [trace fst]. by rewrite scan_heads_written.
  - apply Forall_app.
    split; [apply (discovery_leaves_canvas py_float py_str mm)|apply combine_all_leaves_canvas].
  - done.
Qed.

End Runs.

(** In the directory where order m declares no size, order a is written,
    the run then fails on m, and no document is started. *)
Lemma run_stops_at_first_failure_witness :
  let run := main Demo.float_of_digits Demo.str_of_float DemoRuns.broken_files
                  DemoRuns.broken_orders Demo.drawings reportlab_mm reportlab_A4
                  20 "orders" "out" Demo.sheet in
  outcome run = Raise (ValueError msg_missing_dimensions) /\
  exit_status run = Some 1%Z /\
  composites_written (trace run) = [Demo.a_out] /\
  Forall (fun ev => touches_canvas ev = false) (trace run).
Proof.
  destruct (outcome (combine_all Demo.float_of_digits Demo.str_of_float
                       DemoRuns.broken_files "out" [DemoRuns.pair_of "a"]))
    as [figs| |] eqn:Ea; [|by vm_compute in Ea..].
  exact (run_stops_at_first_failure Demo.float_of_digits Demo.str_of_float
           DemoRuns.broken_files DemoRuns.broken_orders Demo.drawings
           reportlab_mm reportlab_A4 20 "orders" "out" Demo.sheet
           [DemoRuns.pair_of "a"] (DemoRuns.pair_of "m") [] figs
           (ValueError msg_missing_dimensions)
           ltac:(by vm_compute) Ea ltac:(by vm_compute)).
Defined.

(** In the demonstration directory both complete orders are written, a
    before c. *)
Lemma every_pair_gets_a_composite_witness :
  composites_written
    (trace (main Demo.float_of_digits Demo.str_of_float Demo.order_files
                 Demo.orders Demo.drawings reportlab_mm reportlab_A4
                 20 "orders" "out" Demo.sheet))
  = [Demo.a_out; mkPath "out" "c_figabooth.svg"].
Proof.
  destruct (outcome (combine_all Demo.float_of_digits Demo.str_of_float
                       Demo.order_files "out"
                       [DemoRuns.pair_of "a"; DemoRuns.pair_of "c"]))
    as [figs| |] eqn:Ea; [|by vm_compute in Ea..].
  exact (proj1 (proj2
    (every_pair_gets_a_composite Demo.float_of_digits Demo.str_of_float
       Demo.order_files Demo.orders Demo.drawings reportlab_mm reportlab_A4
       20 "orders" "out" Demo.sheet
       [DemoRuns.pair_of "a"; DemoRuns.pair_of "c"] figs
       ltac:(by vm_compute) Ea))).
Defined.

(** The order that is 0 pixels wide is written and then stops the run
    with a division by zero. *)
Lemma planner_failure_leaves_no_document_witness :
  let run := main Demo.float_of_digits Demo.str_of_float DemoRuns.flat_files
                  DemoRuns.flat_orders Demo.drawings reportlab_mm reportlab_A4
                  20 "orders" "out" Demo.sheet in
  outcome run = Raise ZeroDivisionError /\
  exit_status run = Some 1%Z /\
  composites_written (trace run) = [mkPath "out" "z_figabooth.svg"].
Proof.
  destruct (outcome (combine_all Demo.float_of_digits Demo.str_of_float
                       DemoRuns.flat_files "out" [DemoRuns.pair_of "z"]))
    as [[|fig0 rest]| |] eqn:Ez; [by vm_compute in Ez| |by vm_compute in Ez..].
  destruct (planner_failure_leaves_no_document Demo.float_of_digits
              Demo.str_of_float DemoRuns.flat_files DemoRuns.flat_orders
              Demo.drawings reportlab_mm reportlab_A4 20 "orders" "out" Demo.sheet
              [DemoRuns.pair_of "z"] fig0 rest ZeroDivisionError
              ltac:(by vm_compute) Ez
              ltac:(vm_compute in Ez; injection Ez as <- <-; by vm_compute))
    as (Hout & Hexit & Hw & _).
  split; [exact Hout|]. split; [exact Hexit|exact Hw].
Defined.

(** ** More on discovery *)

Lemma scan_heads_omap listdir order_dir heads :
  scan_heads listdir order_dir heads
  = (omap (warning_of listdir order_dir) heads,
     omap (pair_for listdir order_dir) heads).
Proof.
  induction heads as [|nm heads IH]; [done|].
  cbn [scan_heads]. rewrite IH. csimpl. unfold warning_of, pair_for, order_of.
  by case_bool_decide.
Qed.

Lemma omap_pointwise {A B} (f g : A -> option B) (l : list A) :
  (forall x, f x = g x) -> omap f l = omap g l.
Proof.
  intros Hfg. induction l as [|x l IH]; [done|]. csimpl. by rewrite Hfg, IH.
Qed.

Lemma scan_heads_lengths listdir order_dir heads :
  (length (scan_heads listdir order_dir heads).2
   + length (scan_heads listdir order_dir heads).1 = length heads)%nat.
Proof.
  induction heads as [|nm heads IH]; [done|]. cbn [scan_heads].
  destruct (scan_heads listdir order_dir heads) as [log pairs].
  case_bool_decide; cbn in *; lia.
Qed.

(** X8: every head file is accounted for exactly once, by a pair or by
    a warning, and nothing else is: the pairs and the warnings together
    number the head files of the directory, and a directory without
    head files (bodies without a head included) gives no pair and no
    warning. *)
Theorem discovery_accounts_for_every_head listdir order_dir :
  (exists pairs,
     outcome (discover_orders listdir order_dir) = Ok pairs /\
     (length pairs + length (trace (discover_orders listdir order_dir))
      = length (glob_heads listdir order_dir))%nat) /\
  ((forall nm, nm ∈ listdir order_dir -> PyStr.endswith nm "_head.svg" = false) ->
     discover_orders listdir order_dir = ([], Ok [])).
Proof.
  rewrite discover_orders_eq. cbn [outcome trace fst snd]. split.
  - eexists. split; [done|].
    rewrite (Permutation_length (sort_pairs_perm _)). apply scan_heads_lengths.
  - intros Hnone.
    assert (glob_heads listdir order_dir = []) as ->; [|done].
    unfold glob_heads. induction (listdir order_dir) as [|nm l IH]; [done|].
    rewrite filter_cons.
    rewrite decide_False by (rewrite Hnone; [done|by left]).
    apply IH. intros nm' ?. apply Hnone. by right.
Qed.

Lemma pair_for_perm listdir listdir' order_dir nm :
  listdir order_dir ≡ₚ listdir' order_dir ->
  pair_for listdir order_dir nm = pair_for listdir' order_dir nm.
Proof.
  intros Hperm. unfold pair_for.
  by rewrite (bool_decide_ext _ (_ ∈ listdir' order_dir)) by by rewrite Hperm.
Qed.

Lemma warning_of_perm listdir listdir' order_dir nm :
  listdir order_dir ≡ₚ listdir' order_dir ->
  warning_of listdir order_dir nm = warning_of listdir' order_dir nm.
Proof.
  intros Hperm. unfold warning_of.
  by rewrite (bool_decide_ext _ (_ ∈ listdir' order_dir)) by by rewrite Hperm.
Qed.

Lemma pair_for_head listdir order_dir nm p :
  pair_for listdir order_dir nm = Some p ->
  p = (mkPath order_dir nm, mkPath order_dir (order_of nm +:+ "_body.svg"),
       order_of nm).
Proof. unfold pair_for. case_bool_decide; [by intros [= <-]|done]. Qed.

(** X9: the pairs returned do not depend on the order in which the
    directory is listed: two listings of the same files give the same
    list of pairs, and the same warnings up to their order. *)
Theorem discovery_ignores_listing_order listdir listdir' order_dir :
  listdir order_dir ≡ₚ listdir' order_dir ->
  outcome (discover_orders listdir order_dir)
  = outcome (discover_orders listdir' order_dir) /\
  trace (discover_orders listdir order_dir)
  ≡ₚ trace (discover_orders listdir' order_dir).
Proof.
  intros Hperm. rewrite !discover_orders_eq, !scan_heads_omap.
  cbn [outcome trace fst snd].
  assert (glob_heads listdir order_dir ≡ₚ glob_heads listdir' order_dir) as Hheads
    by (unfold glob_heads; by rewrite Hperm).
  split.
  - f_equal. apply (StronglySorted_unique_strong by_order_id);
      [|apply sort_pairs_sorted..|].
    + intros p q Hp Hq Hpq Hqp.
      rewrite sort_pairs_perm in Hp, Hq.
      apply list_elem_of_omap in Hp as (nm & Hnm & Hp).
      apply list_elem_of_omap in Hq as (nm' & Hnm' & Hq).
      apply pair_for_head in Hp, Hq. subst p q.
      unfold glob_heads in Hnm, Hnm'.
      apply list_elem_of_filter in Hnm as [Hend _].
      apply list_elem_of_filter in Hnm' as [Hend' _].
      unfold by_order_id in Hpq, Hqp. cbn in Hpq, Hqp.
      assert (order_of nm = order_of nm') as Hid by by apply (anti_symm String.le).
      assert (nm = nm') as ->; [|done].
      rewrite (head_of_order nm Hend), (head_of_order nm' Hend'). by rewrite Hid.
    + rewrite !sort_pairs_perm, Hheads.
      by rewrite (omap_pointwise _ (pair_for listdir' order_dir))
        by (intros nm; by apply pair_for_perm).
  - rewrite Hheads.
    by rewrite (omap_pointwise _ (warning_of listdir' order_dir))
      by (intros nm; by apply warning_of_perm).
Qed.

(** The demonstration directory listed backwards gives the same pairs. *)
Lemma discovery_ignores_listing_order_witness :
  outcome (discover_orders Demo.orders "orders")
  = outcome (discover_orders (fun dir => reverse (Demo.orders dir)) "orders").
Proof.
  exact (proj1 (discovery_ignores_listing_order Demo.orders
                  (fun dir => reverse (Demo.orders dir)) "orders"
                  ltac:(by rewrite reverse_Permutation))).
Defined.

(** ** More on the planner *)

Lemma is_nan_true x : PyFloat.is_nan x = true -> Prim2SF x = S754_nan.
Proof.
  unfold PyFloat.is_nan. rewrite FloatAxioms.eqb_spec. unfold SFeqb.
  intros H. destruct (Prim2SF x) as [[]|[]| |[] m e] eqn:E; try done;
    by rewrite SFcompare_refl in H.
Qed.

Lemma not_leb_ltb x y :
  PyFloat.is_nan x = false -> PyFloat.is_nan y = false ->
  (x <=? y)%float = false -> (y <? x)%float = true.
Proof.
  intros Hx%is_nan_false Hy%is_nan_false.
  rewrite FloatAxioms.ltb_spec, FloatAxioms.leb_spec. unfold SFltb, SFleb.
  rewrite (SFcompare_antisym (Prim2SF x) (Prim2SF y)).
  destruct (Prim2SF x) as [[]|[]| |[] m e], (Prim2SF y) as [[]|[]| |[] m' e'];
    try done; cbn;
    destruct (e ?= e')%Z; cbn; try done;
    destruct (Pos.compare_cont Eq m m'); done.
Qed.

Lemma positive_is_not_zero x : (0 <? x)%float = true -> (x =? 0)%float = false.
Proof.
  rewrite FloatAxioms.ltb_spec, FloatAxioms.eqb_spec.
  change (Prim2SF 0) with (S754_zero false). unfold SFltb, SFeqb.
  destruct (Prim2SF x) as [[]|[]| |[] m e]; done.
Qed.

Lemma math_floor_errors x e :
  math_floor x = Raise e -> e = OverflowError \/ e = ValueError msg_floor_nan.
Proof.
  unfold math_floor. destruct (Prim2SF x); try done; intros [= <-]; tauto.
Qed.

Lemma count_rows_zero fuel y r n :
  count_rows fuel 0 y r = Ok n -> n = 0%Z <-> (0 <=? y)%float = false.
Proof.
  destruct fuel as [|fuel]; [done|]. cbn.
  destruct (0 <=? y)%float.
  - intros H%count_rows_at_least. split; [lia|done].
  - by intros [= <-].
Qed.

Lemma clamped_start_is_nan page_height top_margin composite_height :
  (0 <=? Spec.clamped_start_y page_height top_margin composite_height)%float = false
  <-> PyFloat.is_nan (page_height - top_margin - composite_height) = true.
Proof.
  unfold Spec.clamped_start_y.
  set (d := (page_height - top_margin - composite_height)%float).
  destruct (PyFloat.is_nan d) eqn:Hnan.
  - apply is_nan_true in Hnan.
    assert ((d <? 0)%float = false) as ->
      by (by rewrite FloatAxioms.ltb_spec, Hnan).
    rewrite FloatAxioms.leb_spec, Hnan.
    by change (Prim2SF 0) with (S754_zero false).
  - destruct (d <? 0)%float eqn:Hneg; [done|].
    by rewrite (not_ltb_leb d 0 Hnan eq_refl Hneg).
Qed.

Section PlannerEdges.

Variable mm : float.
Variable A4 : float * float.
Variable K : LayoutConstants.
Variable fig0 : Figabooth.

Local Abbreviation pt := (Spec.px_to_pt mm).
Local Abbreviation width := (pt (width_px fig0)).
Local Abbreviation height := (pt (height_px fig0)).
Local Abbreviation step := (Spec.step_x width (pt (overlap_px K))).
Local Abbreviation cols := (Spec.columns A4.1 (pt (start_x_px K)) width step).
Local Abbreviation first_y :=
  (Spec.clamped_start_y A4.2 (pt (top_margin_px K)) height).
Local Abbreviation row_h := (height + pt (v_spacing_px K))%float.

(** X10: the fallback [if max_rows == 0: max_rows = 1] is taken only
    for a start that is not a number: whenever the planner returns, the
    loop has counted zero rows exactly when [page_height - top_margin -
    composite_height] is NaN, and otherwise the row count is the loop's
    own count. *)
Theorem rows_fallback_only_for_nan fuel g :
  layout_grid mm A4 K fuel fig0 = Ok g ->
  exists n,
    count_rows fuel 0 first_y row_h = Ok n /\
    (n = 0%Z <-> PyFloat.is_nan (A4.2 - pt (top_margin_px K) - height) = true) /\
    (n = 0%Z -> max_rows g = 1%Z) /\
    (n <> 0%Z -> max_rows g = n).
Proof.
  intros (c & n & _ & Hn & _ & _ & _ & Hr & _)%layout_grid_inv.
  exists n. split; [done|]. split; [|split].
  - rewrite (count_rows_zero _ _ _ _ Hn). apply clamped_start_is_nan.
  - intros ->. by rewrite Hr.
  - intros Hne. rewrite Hr. by destruct (Z.eqb_spec n 0).
Qed.


End PlannerEdges.

(** For a composite whose height is NaN the loop counts nothing and the
    fallback gives the one row. *)
Lemma rows_fallback_only_for_nan_witness :
  exists g n,
    layout_grid reportlab_mm reportlab_A4 source_constants 5 DemoRuns.hazy = Ok g /\
    count_rows 5 0 (start_y g) (row_height_pt g) = Ok n /\
    n = 0%Z /\ max_rows g = 1%Z.
Proof.
  destruct (layout_grid reportlab_mm reportlab_A4 source_constants 5 DemoRuns.hazy)
    as [g| |] eqn:Hg; [|by vm_compute in Hg..].
  destruct (rows_fallback_only_for_nan reportlab_mm reportlab_A4 source_constants
              DemoRuns.hazy 5 g Hg) as (n & Hn & Hnan & Hone & _).
  exists g, n. split; [reflexivity|].
  assert (n = 0%Z) as Hzero by (apply Hnan; by vm_compute).
  split; [|split; [exact Hzero|exact (Hone Hzero)]].
  vm_compute in Hg. injection Hg as <-. exact Hn.
Defined.


(** ** More on placement *)

Section FirstSize.

Variable svg2rlg : Path -> float * float.
Variable mm : float.
Variable A4 : float * float.

Lemma draw_fig_same_file g i a b :
  same_file a b -> draw_fig svg2rlg g i a = draw_fig svg2rlg g i b.
Proof. intros [Hp Ho]. unfold draw_fig. by rewrite Hp, Ho. Qed.

Lemma draw_figs_same_file g figs figs' :
  Forall2 same_file figs figs' ->
  forall i, draw_figs svg2rlg g i figs = draw_figs svg2rlg g i figs'.
Proof.
  induction 1 as [|a b figs figs' Hab _ IH]; intros i; [done|].
  cbn [draw_figs]. rewrite (draw_fig_same_file g i a b Hab).
  destruct (draw_fig svg2rlg g i b) as [t [[]| |]]; [|done..].
  by rewrite !bind_ok, IH.
Qed.

(** X12: the grid and the scale of every drawing come from the first
    composite alone: the widths and heights recorded for the later
    composites play no part in the document. *)
Theorem layout_sizes_come_from_first K fuel fig0 rest rest' pdf_path :
  Forall2 same_file rest rest' ->
  layout_figabooths svg2rlg mm A4 K fuel (fig0 :: rest) pdf_path
  = layout_figabooths svg2rlg mm A4 K fuel (fig0 :: rest') pdf_path.
Proof.
  intros Hsame. unfold layout_figabooths.
  destruct (layout_grid mm A4 K fuel fig0) as [g| |]; [|done..].
  unfold lift. rewrite !bind_ok. cbn beta.
  by rewrite (draw_figs_same_file g (fig0 :: rest) (fig0 :: rest'))
    by (constructor; [done|done]).
Qed.

End FirstSize.

(** A second composite recorded as 5x5 is laid out exactly as one
    recorded as 100x110. *)
Lemma layout_sizes_come_from_first_witness :
  layout_figabooths Demo.drawings reportlab_mm reportlab_A4 source_constants 20
                    [Demo.fig_100x110; Demo.fig_100x110] Demo.sheet
  = layout_figabooths Demo.drawings reportlab_mm reportlab_A4 source_constants 20
                      [Demo.fig_100x110; DemoRuns.fig_5x5] Demo.sheet.
Proof.
  exact (layout_sizes_come_from_first Demo.drawings reportlab_mm reportlab_A4
           source_constants 20 Demo.fig_100x110 [Demo.fig_100x110]
           [DemoRuns.fig_5x5] Demo.sheet
           ltac:(repeat constructor)).
Defined.

(** ** More on lengths *)

Lemma lstrip_spaces (a l : list ascii) :
  Forall (fun c => PyStr.is_space c = true) a ->
  PyStr.lstrip (a ++ l) = PyStr.lstrip l.
Proof. induction 1 as [|c a Hc _ IH]; [done|]. cbn. by rewrite Hc. Qed.

Lemma lstrip_keeps_tail (l b : list ascii) :
  PyStr.lstrip l <> [] -> PyStr.lstrip (l ++ b) = PyStr.lstrip l ++ b.
Proof.
  induction l as [|c l IH]; [done|]. cbn.
  destruct (PyStr.is_space c); [apply IH|done].
Qed.

Lemma strip_chars_spaces_l (a l : list ascii) :
  Forall (fun c => PyStr.is_space c = true) a ->
  PyStr.strip_chars (a ++ l) = PyStr.strip_chars l.
Proof. intros Ha. unfold PyStr.strip_chars. by rewrite lstrip_spaces. Qed.

Lemma strip_chars_spaces_r (l b : list ascii) :
  Forall (fun c => PyStr.is_space c = true) b ->
  PyStr.strip_chars (l ++ b) = PyStr.strip_chars l.
Proof.
  intros Hb. unfold PyStr.strip_chars.
  destruct (PyStr.lstrip l) as [|c t] eqn:El.
  - assert (PyStr.lstrip (l ++ b) = []) as ->; [|done].
    clear -El Hb. induction l as [|c l IH]; cbn in *.
    + rewrite <- (app_nil_r b). rewrite lstrip_spaces by done. done.
    + destruct (PyStr.is_space c); [by apply IH|done].
  - rewrite lstrip_keeps_tail by by rewrite El.
    rewrite El, rev_app_distr, lstrip_spaces; [done|].
    by apply Forall_rev.
Qed.

Section Padding.

Variable py_float : string -> option float.


End Padding.


(** ** Distinct composites *)

Lemma pair_for_NoDup listdir order_dir heads :
  NoDup heads -> NoDup (omap (pair_for listdir order_dir) heads).
Proof.
  induction 1 as [|nm heads Hnm _ IH]; csimpl; [constructor|].
  destruct (pair_for listdir order_dir nm) as [p|] eqn:Ep; [|done].
  constructor; [|done].
  intros (nm' & Hin & Ep')%list_elem_of_omap.
  apply pair_for_head in Ep, Ep'. subst p. by injection Ep' as ->.
Qed.

(** X14: in a directory whose names are distinct no two pairs share an
    order id, so every composite is written to a file of its own: the
    output paths of the pairs are pairwise distinct. *)
Theorem composites_do_not_collide listdir order_dir fig_output_dir :
  NoDup (listdir order_dir) ->
  exists pairs,
    outcome (discover_orders listdir order_dir) = Ok pairs /\
    NoDup (snd <$> pairs) /\
    NoDup (fig_path fig_output_dir <$> pairs).
Proof.
  intros Hnodup. rewrite discover_orders_eq, scan_heads_omap.
  cbn [outcome snd]. eexists. split; [done|].
  set (pairs := sort_pairs _).
  assert (NoDup pairs) as Hpairs.
  { unfold pairs. rewrite sort_pairs_perm.
    apply pair_for_NoDup. unfold glob_heads. by apply NoDup_filter. }
  assert (forall p q, p ∈ pairs -> q ∈ pairs -> p.2 = q.2 -> p = q) as Hid.
  { intros p q Hp Hq E. unfold pairs in Hp, Hq.
    rewrite sort_pairs_perm in Hp, Hq.
    apply list_elem_of_omap in Hp as (nm & Hnm & Hp).
    apply list_elem_of_omap in Hq as (nm' & Hnm' & Hq).
    apply pair_for_head in Hp, Hq. subst p q. cbn in E.
    unfold glob_heads in Hnm, Hnm'.
    apply list_elem_of_filter in Hnm as [Hend _].
    apply list_elem_of_filter in Hnm' as [Hend' _].
    assert (nm = nm') as ->; [|done].
    rewrite (head_of_order nm Hend), (head_of_order nm' Hend'). by rewrite E. }
  split.
  - by apply NoDup_fmap_2_strong.
  - apply NoDup_fmap_2_strong; [|done].
    intros p q Hp Hq [= E]. apply Hid; [done..|]. by apply append_inj_l in E.
Qed.

(** The demonstration directory: two pairs, two different files. *)
Lemma composites_do_not_collide_witness :
  exists pairs,
    outcome (discover_orders Demo.orders "orders") = Ok pairs /\
    NoDup (fig_path "out" <$> pairs).
Proof.
  destruct (composites_do_not_collide Demo.orders "orders" "out"
              ltac:(compute_done))
    as (pairs & Hok & _ & Hpaths).
  exists pairs. split; [exact Hok|exact Hpaths].
Defined.

(** ** The bounding box *)

Lemma replace_char_twice a b s :
  PyStr.replace_char a b (PyStr.replace_char a b s) = PyStr.replace_char a b s.
Proof.
  unfold PyStr.replace_char. rewrite list_ascii_of_string_of_list_ascii.
  f_equal. rewrite map_map. apply map_ext. intros c.
  destruct (Ascii.eqb_spec c a) as [->|Hc]; [|by rewrite (proj2 (Ascii.eqb_neq c a))].
  destruct (Ascii.eqb_spec b a); done.
Qed.

Lemma replace_char_truthy a b s :
  PyStr.truthy (Some (PyStr.replace_char a b s)) = PyStr.truthy (Some s).
Proof. destruct s; done. Qed.

Section BoundingBox.

Variable py_float : string -> option float.

(** X15: in a bounding box commas count as blanks: writing the viewBox
    with its commas replaced by blanks changes neither the dimensions
    read from an element nor the error raised. *)
Theorem view_box_commas_are_blanks (root : Element) (view_box : string) :
  attrib root !! "viewBox" = Some view_box ->
  element_dimensions py_float
    (set_attr "viewBox" (PyStr.replace_char "," " " view_box) root)
  = element_dimensions py_float root.
Proof.
  intros Hvb. unfold element_dimensions, set_attr. cbn [attrib].
  rewrite !lookup_insert_ne by done. rewrite lookup_insert_eq, Hvb.
  rewrite replace_char_truthy.
  change (default "" (Some (PyStr.replace_char "," " " view_box)))
    with (PyStr.replace_char "," " " view_box).
  by rewrite replace_char_twice.
Qed.

End BoundingBox.

(** "0,0 100 50" and "0 0 100 50" are the same box. *)
Lemma view_box_commas_are_blanks_witness :
  element_dimensions Demo.float_of_digits
    (set_attr "viewBox" "0 0 100 50" Demo.boxed_100x50)
  = element_dimensions Demo.float_of_digits Demo.boxed_100x50.
Proof.
  exact (view_box_commas_are_blanks Demo.float_of_digits Demo.boxed_100x50
           "0,0 100 50" ltac:(by vm_compute)).
Defined.
